(** * vibes_app: the handlers of the mock API

    A shallow embedding of the fixture store and of the five request
    handlers of the mock API, with the properties of the query handler
    proved over it.

    Conventions of the embedding.
    - A JavaScript [number] is an IEEE 754 binary64 value: Rocq's primitive
      [float].  The relational operators [<], [>], [<=], [>=] are
      [PrimFloat.ltb] and [PrimFloat.leb] (with the operands swapped for
      [>] and [>=]); [===] on numbers is [PrimFloat.eqb].
    - A JavaScript string is modelled by a Rocq [string] holding one
      character per UTF-16 code unit; the embedding covers the strings whose
      code units are below 256 (ASCII and Latin-1) and the string built-ins
      are written out for that range.
    - [null] and [undefined] results are [None].
    - [HttpResponse.json(x)] is a response with status 200 carrying [x];
      [new HttpResponse(null, { status: 404 })] carries nothing. *)

From Stdlib Require Import ZArith Ascii String Floats.
From stdpp Require Import base option list strings gmap.

Local Open Scope string_scope.

(** ** JavaScript built-ins used by the handlers *)

Module JS.

(** *** Strings *)

Definition code (c : ascii) : N := N_of_ascii c.

Definition in_range (lo hi : N) (c : ascii) : bool :=
  (lo <=? code c)%N && (code c <=? hi)%N.

(** Upper-case letters of the range: A-Z, and the Latin-1 letters
    U+00C0..U+00DE except the multiplication sign U+00D7. *)
Definition is_upper (c : ascii) : bool :=
  in_range 65 90 c
  || (in_range 192 222 c && negb (code c =? 215)%N).

Definition lower_char (c : ascii) : ascii :=
  if is_upper c then ascii_of_N (code c + 32) else c.

(** [String.prototype.toLowerCase] *)
Fixpoint toLowerCase (s : string) : string :=
  match s with
  | EmptyString => EmptyString
  | String c s' => String (lower_char c) (toLowerCase s')
  end.

(** [s] is a prefix of [h] *)
Fixpoint startsWith (h s : string) {struct s} : bool :=
  match s, h with
  | EmptyString, _ => true
  | String _ _, EmptyString => false
  | String a s', String b h' => Ascii.eqb a b && startsWith h' s'
  end.

(** [String.prototype.includes]: [s] occurs in [h] at some position. *)
Fixpoint includes (h s : string) : bool :=
  startsWith h s
  || match h with
     | EmptyString => false
     | String _ h' => includes h' s
     end.

(** White space and line terminators below U+0100: TAB, LF, VT, FF, CR,
    SP and NBSP. *)
Definition is_space (c : ascii) : bool :=
  in_range 9 13 c || (code c =? 32)%N || (code c =? 160)%N.

Fixpoint trimStart (s : string) : string :=
  match s with
  | EmptyString => EmptyString
  | String c s' => if is_space c then trimStart s' else s
  end.

Fixpoint trimEnd (s : string) : string :=
  match s with
  | EmptyString => EmptyString
  | String c s' =>
      match trimEnd s' with
      | EmptyString => if is_space c then EmptyString else String c EmptyString
      | t => String c t
      end
  end.

(** [String.prototype.trim] *)
Definition trim (s : string) : string := trimEnd (trimStart s).

(** ToBoolean of a string: the empty string is the only falsy one. *)
Definition truthy (s : string) : bool :=
  match s with EmptyString => false | _ => true end.

(** *** Numbers *)

Definition lt (a b : float) : bool := PrimFloat.ltb a b.
Definition gt (a b : float) : bool := PrimFloat.ltb b a.
Definition le (a b : float) : bool := PrimFloat.leb a b.
Definition ge (a b : float) : bool := PrimFloat.leb b a.
Definition isNaN (a : float) : bool := PrimFloat.is_nan a.

(** The binary64 value nearest to [m * 10^e] (ties to even), with
    [neg] the sign: the value of a decimal literal. *)
Definition of_decimal (neg : bool) (m : N) (e : Z) : float :=
  match m with
  | N0 => if neg then neg_zero else zero
  | Npos p =>
      SF2Prim
        (match e with
         | Zneg k =>
             SFdiv prec emax (S754_finite neg p 0)
                   (S754_finite false (Pos.pow 10 k) 0)
         | _ =>
             let v := (Zpos p * 10 ^ e)%Z in
             binary_normalize prec emax (if neg then (- v)%Z else v) 0 neg
         end)
  end.

Definition is_digit (c : ascii) : bool := in_range 48 57 c.

(** Value of a digit in a base up to 16, [None] for any other character. *)
Definition digit_of (base : N) (c : ascii) : option N :=
  let v :=
    if is_digit c then Some (code c - 48)%N
    else if in_range 97 102 c then Some (code c - 87)%N
    else if in_range 65 70 c then Some (code c - 55)%N
    else None in
  match v with
  | Some d => if (d <? base)%N then Some d else None
  | None => None
  end.

(** Reads the longest run of digits of [base] at the head of [s]: the
    value read after [acc], the number of digits read after [n], and the
    rest of the string. *)
Fixpoint digits (base : N) (s : string) (acc n : N) : N * N * string :=
  match s with
  | String c s' =>
      match digit_of base c with
      | Some d => digits base s' (acc * base + d)%N (n + 1)%N
      | None => (acc, n, s)
      end
  | EmptyString => (acc, n, s)
  end.

(** ExponentPart, optional: [e] or [E], an optional sign, digits. *)
Definition exponent (s : string) : option Z :=
  match s with
  | EmptyString => Some 0%Z
  | String c s' =>
      if Ascii.eqb c "e" || Ascii.eqb c "E" then
        let '(neg, s'') :=
          match s' with
          | String "+" r => (false, r)
          | String "-" r => (true, r)
          | _ => (false, s')
          end in
        match digits 10 s'' 0 0 with
        | (v, n, EmptyString) =>
            if (n =? 0)%N then None
            else Some (if neg then (- Z.of_N v)%Z else Z.of_N v)
        | _ => None
        end
      else None
  end.

(** StrUnsignedDecimalLiteral with its sign already read. *)
Definition unsigned_decimal (neg : bool) (s : string) : float :=
  if String.eqb s "Infinity" then (if neg then neg_infinity else infinity)
  else
    let '(i, ni, r) := digits 10 s 0 0 in
    let '(m, nf, r') :=
      match r with
      | String "." r1 => digits 10 r1 i 0
      | _ => (i, 0%N, r)
      end in
    if (ni + nf =? 0)%N then nan
    else
      match exponent r' with
      | Some e => of_decimal neg m (e - Z.of_N nf)
      | None => nan
      end.

(** NonDecimalIntegerLiteral: the digits after [0x], [0o] or [0b]. *)
Definition non_decimal (base : N) (s : string) : float :=
  match digits base s 0 0 with
  | (v, n, EmptyString) => if (n =? 0)%N then nan else of_decimal false v 0
  | _ => nan
  end.

(** [Number(s)] for a string [s] (StringToNumber): white space trimmed,
    the empty string read as 0, a signed decimal literal or an unsigned
    hexadecimal, octal or binary integer read as the nearest binary64 value,
    anything else as NaN.  Literals of more than 20 significant digits are
    rounded exactly, as V8 and the other current engines do. *)
Definition Number (s : string) : float :=
  match trim s with
  | EmptyString => zero
  | String "+" r => unsigned_decimal false r
  | String "-" r => unsigned_decimal true r
  | String "0" (String c r) as t =>
      if Ascii.eqb c "x" || Ascii.eqb c "X" then non_decimal 16 r
      else if Ascii.eqb c "o" || Ascii.eqb c "O" then non_decimal 8 r
      else if Ascii.eqb c "b" || Ascii.eqb c "B" then non_decimal 2 r
      else unsigned_decimal false t
  | t => unsigned_decimal false t
  end.

End JS.

(** ** Data model (the [type] declarations of the handlers file) *)

Module Stock.
Inductive Rating := Buy | Hold | Sell.

(** The string a rating is at run time. *)
Definition rating_str (r : Rating) : string :=
  match r with Buy => "Buy" | Hold => "Hold" | Sell => "Sell" end.

Record t := mk {
  id : string;
  ticker : string;
  company : string;
  sector : string;
  price : float;
  changePercent : float;
  volume : float;
  marketCap : float;
  rating : Rating;
  lastUpdated : string
}.
End Stock.

Module Bond.
Inductive Rating := AAA | AA | A | BBB | BB.
Inductive Currency := USD | EUR.

Record t := mk {
  id : string;
  name : string;
  issuer : string;
  rating : Rating;
  coupon : float;
  maturity : string;
  yieldToMaturity : float;
  duration : float;
  price : float;
  currency : Currency;
  nextCall : option string;
  sector : string;
  size : float;
  lastTraded : string
}.
End Bond.

(** The object literal built by the [/api/bonds] handler for each bond. *)
Module BondOption.
Record t := mk {
  id : string;
  name : string;
  issuer : string;
  rating : Bond.Rating
}.
End BondOption.

Module ServiceBrief.
Inductive MandateType := discretionary | advisory | execution_only.
Inductive RiskProfile := conservative | moderate | aggressive.
Inductive Horizon := short | medium | long.
Inductive AssetClass := equities | fixed_income | alternatives | multi_asset.

Record t := mk {
  clientName : string;
  email : string;
  firm : string;
  portfolioSize : float;
  mandateType : MandateType;
  riskProfile : RiskProfile;
  investmentHorizon : Horizon;
  assetClass : AssetClass;
  instrument : string;
  notes : string
}.
End ServiceBrief.

Module Instrument.
Record t := mk {
  id : string;
  name : string;
  ticker : string
}.
End Instrument.

(** ** Fixture store *)

#[local] Set Warnings "-inexact-float".
Local Open Scope float_scope.

Definition stocks : list Stock.t :=
  [ Stock.mk "stk-001" "ALNA" "Aluna Energy"
      "Energy" 84.12 1.84 5230000 24800000000
      Stock.Buy "2026-02-11T14:12:00Z";
    Stock.mk "stk-002" "BLFD" "Bluefield Cloud"
      "Technology" 142.75 (-0.62) 8120000 91800000000
      Stock.Hold "2026-02-11T14:09:00Z";
    Stock.mk "stk-003" "CSTL" "Coastal Materials"
      "Industrials" 58.44 0.31 1830000 11200000000
      Stock.Hold "2026-02-11T14:05:00Z";
    Stock.mk "stk-004" "DLWN" "Dawn Foods"
      "Consumer Staples" 39.9 (-1.12) 2260000 7600000000
      Stock.Buy "2026-02-11T14:08:00Z";
    Stock.mk "stk-005" "ECHO" "Echo Mobility"
      "Consumer Discretionary" 27.63 2.21 6410000 9800000000
      Stock.Buy "2026-02-11T14:11:00Z";
    Stock.mk "stk-006" "FLXR" "Flux Robotics"
      "Technology" 212.4 3.05 4320000 156000000000
      Stock.Buy "2026-02-11T14:10:00Z";
    Stock.mk "stk-007" "GNRD" "Greenridge Utilities"
      "Utilities" 62.15 (-0.18) 1960000 21400000000
      Stock.Hold "2026-02-11T14:07:00Z";
    Stock.mk "stk-008" "HLXR" "Helix Health"
      "Healthcare" 94.3 1.02 3890000 48600000000
      Stock.Buy "2026-02-11T14:06:00Z";
    Stock.mk "stk-009" "IONA" "Iona Renewables"
      "Energy" 46.78 (-2.34) 7120000 15200000000
      Stock.Sell "2026-02-11T14:09:00Z";
    Stock.mk "stk-010" "JUNO" "Juno Logistics"
      "Industrials" 73.88 0.54 2740000 18600000000
      Stock.Hold "2026-02-11T14:04:00Z";
    Stock.mk "stk-011" "KOVA" "Kova Financial"
      "Financials" 129.15 1.6 5270000 68200000000
      Stock.Buy "2026-02-11T14:07:00Z";
    Stock.mk "stk-012" "LUMA" "Luma Semiconductors"
      "Technology" 311.02 (-1.45) 6110000 234000000000
      Stock.Hold "2026-02-11T14:03:00Z";
    Stock.mk "stk-013" "MARN" "Mariner Apparel"
      "Consumer Discretionary" 33.67 0.22 1650000 5100000000
      Stock.Hold "2026-02-11T14:11:00Z";
    Stock.mk "stk-014" "NOVA" "Nova MedTech"
      "Healthcare" 118.2 2.7 3470000 72200000000
      Stock.Buy "2026-02-11T14:02:00Z";
    Stock.mk "stk-015" "ORBT" "Orbit Streaming"
      "Communication Services" 51.96 (-0.4) 2890000 19400000000
      Stock.Hold "2026-02-11T14:12:00Z";
    Stock.mk "stk-016" "PRSM" "Prism Retail"
      "Consumer Discretionary" 64.38 (-1.8) 4780000 22100000000
      Stock.Sell "2026-02-11T14:06:00Z";
    Stock.mk "stk-017" "QUAY" "Quay Hospitality"
      "Consumer Discretionary" 22.75 1.14 1320000 3900000000
      Stock.Hold "2026-02-11T14:04:00Z";
    Stock.mk "stk-018" "RIVR" "Riverline Shipping"
      "Industrials" 41.22 0.08 2030000 8400000000
      Stock.Hold "2026-02-11T14:08:00Z";
    Stock.mk "stk-019" "SOLR" "Solara Power"
      "Utilities" 76.54 1.36 2190000 26800000000
      Stock.Buy "2026-02-11T14:12:00Z";
    Stock.mk "stk-020" "TRMN" "Truman Insurance"
      "Financials" 92.41 (-0.98) 2410000 35600000000
      Stock.Hold "2026-02-11T14:10:00Z";
    Stock.mk "stk-021" "URSA" "Ursa Defense"
      "Industrials" 158.9 2.48 4180000 104000000000
      Stock.Buy "2026-02-11T14:03:00Z";
    Stock.mk "stk-022" "VTRN" "Vitorra Biotech"
      "Healthcare" 67.19 (-0.22) 2950000 18900000000
      Stock.Hold "2026-02-11T14:05:00Z";
    Stock.mk "stk-023" "WISP" "Wisp Wireless"
      "Communication Services" 39.04 0.9 3770000 14200000000
      Stock.Buy "2026-02-11T14:09:00Z";
    Stock.mk "stk-024" "XENO" "Xeno Materials"
      "Materials" 55.67 (-0.74) 2080000 12600000000
      Stock.Hold "2026-02-11T14:01:00Z";
    Stock.mk "stk-025" "YARA" "Yara AgriTech"
      "Materials" 47.32 1.12 1890000 9800000000
      Stock.Buy "2026-02-11T14:06:00Z";
    Stock.mk "stk-026" "ZEND" "Zendara Software"
      "Technology" 188.56 0.44 5210000 112000000000
      Stock.Buy "2026-02-11T14:12:00Z";
    Stock.mk "stk-027" "AURM" "Auram Luxury"
      "Consumer Discretionary" 96.21 (-2.16) 1580000 27400000000
      Stock.Sell "2026-02-11T14:02:00Z";
    Stock.mk "stk-028" "BLOM" "Bloom Home"
      "Consumer Discretionary" 44.73 0.67 2210000 9800000000
      Stock.Hold "2026-02-11T14:07:00Z";
    Stock.mk "stk-029" "CLAR" "Clarity Payments"
      "Financials" 112.28 1.24 3980000 52100000000
      Stock.Buy "2026-02-11T14:08:00Z";
    Stock.mk "stk-030" "DRFT" "Drift Travel"
      "Consumer Discretionary" 24.08 (-0.36) 1670000 6200000000
      Stock.Hold "2026-02-11T14:04:00Z" ].


Definition serviceBrief : ServiceBrief.t :=
  ServiceBrief.mk "Alexandra Chen" "alexandra.chen@meridian.capital"
    "Meridian Capital Partners" 12500000
    ServiceBrief.discretionary ServiceBrief.moderate ServiceBrief.long
    ServiceBrief.equities "inst-eq-003"
    "ESG-focused allocation preferred. Avoid fossil fuel exposure.".

Definition instruments_equities : list Instrument.t :=
  [ Instrument.mk "inst-eq-001" "Global Equity Fund" "GLEQ";
    Instrument.mk "inst-eq-002" "US Large Cap Growth" "USLCG";
    Instrument.mk "inst-eq-003" "Emerging Markets Fund" "EMMK";
    Instrument.mk "inst-eq-004" "Tech Innovation ETF" "TCHIN";
    Instrument.mk "inst-eq-005" "Dividend Aristocrats" "DVAR" ].

Definition instruments_fixed_income : list Instrument.t :=
  [ Instrument.mk "inst-fi-001" "Global Aggregate Bond" "GLAG";
    Instrument.mk "inst-fi-002" "US Treasury Fund" "USTF";
    Instrument.mk "inst-fi-003" "Investment Grade Corp" "IGCF";
    Instrument.mk "inst-fi-004" "High Yield Bond ETF" "HYLD";
    Instrument.mk "inst-fi-005" "Municipal Bond Fund" "MUBF" ].

Definition instruments_alternatives : list Instrument.t :=
  [ Instrument.mk "inst-alt-001" "Private Equity Fund" "PEFD";
    Instrument.mk "inst-alt-002" "Real Estate Trust" "RRET";
    Instrument.mk "inst-alt-003" "Commodities Basket" "CMBT";
    Instrument.mk "inst-alt-004" "Hedge Fund Strategies" "HDGE";
    Instrument.mk "inst-alt-005" "Infrastructure Fund" "INFR" ].

Definition instruments_multi_asset : list Instrument.t :=
  [ Instrument.mk "inst-ma-001" "Balanced Growth Fund" "BALG";
    Instrument.mk "inst-ma-002" "Target Date 2050" "TD50";
    Instrument.mk "inst-ma-003" "Risk Parity Fund" "RSKP";
    Instrument.mk "inst-ma-004" "Global Allocation" "GLAL";
    Instrument.mk "inst-ma-005" "Dynamic Income" "DINC" ].

(** The own properties of the object literal [instrumentsByAssetClass]. *)
Definition instrumentsByAssetClass : gmap string (list Instrument.t) :=
  {[ "equities" := instruments_equities;
     "fixed-income" := instruments_fixed_income;
     "alternatives" := instruments_alternatives;
     "multi-asset" := instruments_multi_asset ]}.

Definition bonds : list Bond.t :=
  [ Bond.mk "bond-001" "Aurora Transit 2036" "Aurora Transit Authority"
      Bond.AA 3.75 "2036-09-15" 4.18 8.4
      98.62 Bond.USD (Some "2031-09-15") "Municipal"
      1200000000 "2026-02-11T13:58:00Z";
    Bond.mk "bond-002" "Northbridge Health 2031" "Northbridge Health Group"
      Bond.BBB 5.25 "2031-03-01" 5.48 4.9
      101.05 Bond.USD None "Healthcare"
      850000000 "2026-02-11T13:52:00Z";
    Bond.mk "bond-003" "Solara Grid 2040" "Solara Power Holdings"
      Bond.A 4.4 "2040-11-30" 4.86 10.6
      96.4 Bond.USD (Some "2035-11-30") "Utilities"
      1500000000 "2026-02-11T14:02:00Z";
    Bond.mk "bond-004" "Meridian Ports 2029" "Meridian Ports & Logistics"
      Bond.BB 6.1 "2029-07-15" 6.45 3.1
      99.24 Bond.USD None "Industrials"
      420000000 "2026-02-11T13:48:00Z";
    Bond.mk "bond-005" "Lumen Fiber 2038" "Lumen Fiber Networks"
      Bond.A 4.95 "2038-05-01" 5.12 9.3
      97.88 Bond.EUR (Some "2034-05-01") "Communications"
      960000000 "2026-02-11T13:55:00Z" ].

Local Close Scope float_scope.

(** ** Property access on a plain object

    [instrumentsByAssetClass] is an object literal, so its prototype is
    [Object.prototype]: [obj[key]] yields the own property when there is
    one and the property inherited from [Object.prototype] otherwise. *)

Module JSObject.

Inductive value :=
| Undefined
| Instruments (l : list Instrument.t)   (** an array of instruments *)
| BuiltinFunction (name : string)       (** a function object of the engine *)
| ObjectPrototype.                      (** the object [Object.prototype] *)

(** The properties of [Object.prototype]; [__proto__] is an accessor
    whose getter returns the prototype of the receiver, which for an
    object literal is [Object.prototype] itself. *)
Definition Object_prototype : gmap string value :=
  list_to_map
    [ ("constructor", BuiltinFunction "Object");
      ("hasOwnProperty", BuiltinFunction "hasOwnProperty");
      ("isPrototypeOf", BuiltinFunction "isPrototypeOf");
      ("propertyIsEnumerable", BuiltinFunction "propertyIsEnumerable");
      ("toLocaleString", BuiltinFunction "toLocaleString");
      ("toString", BuiltinFunction "toString");
      ("valueOf", BuiltinFunction "valueOf");
      ("__defineGetter__", BuiltinFunction "__defineGetter__");
      ("__defineSetter__", BuiltinFunction "__defineSetter__");
      ("__lookupGetter__", BuiltinFunction "__lookupGetter__");
      ("__lookupSetter__", BuiltinFunction "__lookupSetter__");
      ("__proto__", ObjectPrototype) ].

(** [obj[key]] for an object literal with own properties [own]. *)
Definition Get (own : gmap string (list Instrument.t)) (key : string) : value :=
  match own !! key with
  | Some l => Instruments l
  | None => default Undefined (Object_prototype !! key)
  end.

(** ToBoolean: every object (arrays and functions too) is truthy. *)
Definition ToBoolean (v : value) : bool :=
  match v with Undefined => false | _ => true end.

End JSObject.

(** ** Requests and responses *)

(** [url.searchParams]: the name-value pairs of the query string, in order. *)
Definition URLSearchParams := list (string * string).

(** [searchParams.get(name)]: the value of the first pair named [name]. *)
Definition get (name : string) (searchParams : URLSearchParams) : option string :=
  snd <$> List.find (fun p => String.eqb (fst p) name) searchParams.

Module HttpResponse.
Record t (A : Type) := mk { status : Z; body : option A }.
Arguments mk {A}.
Arguments status {A}.
Arguments body {A}.

(** [HttpResponse.json(x)] *)
Definition json {A} (x : A) : t A := mk 200%Z (Some x).

(** [new HttpResponse(null, { status })] *)
Definition null {A} (status : Z) : t A := mk status None.
End HttpResponse.

(** The shapes of the JSON bodies: [{ data, meta }] and [{ data }]. *)
Module Body.
Record t (D M : Type) := mk { data : D; meta : M }.
Arguments mk {D M}.
Arguments data {D M}.
Arguments meta {D M}.
End Body.

Module Data.
Record t (D : Type) := mk { data : D }.
Arguments mk {D}.
Arguments data {D}.
End Data.

Module StocksMeta.
Record t := mk { total : nat; sectors : list string }.
End StocksMeta.

Module BondsMeta.
Record t := mk { total : nat }.
End BondsMeta.

(** ** The handlers *)

(** [new Set(l)] followed by [Array.from]: a [Set] keeps its elements in
    insertion order, and adding an element it already holds changes
    nothing. *)
Definition Set_add (s : list string) (x : string) : list string :=
  if bool_decide (x ∈ s) then s else s ++ [x].

Definition Array_from_Set (l : list string) : list string :=
  foldl Set_add [] l.

Definition sectors : list string :=
  Array_from_Set (Stock.sector <$> stocks).

Definition parseNumber (value : option string) : option float :=
  match value with
  | None => None
  | Some v => if String.eqb (JS.trim v) "" then None else Some (JS.Number v)
  end.

(** The constants the [/api/stocks] handler reads from the request. *)
Record Filters := mkFilters {
  search : string;
  sector : string;
  rating : string;
  change : string;
  minPrice : option float;
  maxPrice : option float;
  minCap : option float;
  maxCap : option float
}.

Definition filters_of (searchParams : URLSearchParams) : Filters :=
  {| search := default "" (JS.toLowerCase <$> get "search" searchParams);
     sector := default "All" (get "sector" searchParams);
     rating := default "All" (get "rating" searchParams);
     change := default "any" (get "change" searchParams);
     minPrice := parseNumber (get "minPrice" searchParams);
     maxPrice := parseNumber (get "maxPrice" searchParams);
     minCap := parseNumber (get "minCap" searchParams);
     maxCap := parseNumber (get "maxCap" searchParams) |}.

(** [bound !== undefined && test(bound)] *)
Definition defined_and (bound : option float) (test : float -> bool) : bool :=
  match bound with
  | Some b => test b
  | None => false
  end.

(** The callback of [stocks.filter]: each [if (...) return false] in turn,
    then [return true]. *)
Definition stock_filter (f : Filters) (stock : Stock.t) : bool :=
  if JS.truthy (search f)
     && negb (JS.includes
                (JS.toLowerCase (Stock.ticker stock +:+ " " +:+ Stock.company stock))
                (search f))
  then false
  else if negb (String.eqb (sector f) "All")
          && negb (String.eqb (Stock.sector stock) (sector f))
  then false
  else if negb (String.eqb (rating f) "All")
          && negb (String.eqb (Stock.rating_str (Stock.rating stock)) (rating f))
  then false
  else if String.eqb (change f) "positive"
          && JS.le (Stock.changePercent stock) 0
  then false
  else if String.eqb (change f) "negative"
          && JS.ge (Stock.changePercent stock) 0
  then false
  else if defined_and (minPrice f) (fun m => JS.lt (Stock.price stock) m)
  then false
  else if defined_and (maxPrice f) (fun m => JS.gt (Stock.price stock) m)
  then false
  else if defined_and (minCap f) (fun m => JS.lt (Stock.marketCap stock) m)
  then false
  else if defined_and (maxCap f) (fun m => JS.gt (Stock.marketCap stock) m)
  then false
  else true.

(** GET /api/stocks *)
Definition ListStocks (searchParams : URLSearchParams)
  : HttpResponse.t (Body.t (list Stock.t) StocksMeta.t) :=
  let filtered := List.filter (stock_filter (filters_of searchParams)) stocks in
  HttpResponse.json
    (Body.mk filtered (StocksMeta.mk (length filtered) sectors)).

(** GET /api/bonds *)
Definition ListBondSummaries
  : HttpResponse.t (Body.t (list BondOption.t) BondsMeta.t) :=
  let options :=
    (fun bond =>
       BondOption.mk (Bond.id bond) (Bond.name bond) (Bond.issuer bond)
         (Bond.rating bond)) <$> bonds in
  HttpResponse.json (Body.mk options (BondsMeta.mk (length options))).

(** GET /api/bonds/:id *)
Definition GetBondDetail (id : string) : HttpResponse.t (Data.t Bond.t) :=
  match List.find (fun item => String.eqb (Bond.id item) id) bonds with
  | None => HttpResponse.null 404
  | Some bond => HttpResponse.json (Data.mk bond)
  end.

(** GET /api/services/brief *)
Definition GetServiceBrief : HttpResponse.t (Data.t ServiceBrief.t) :=
  HttpResponse.json (Data.mk serviceBrief).

(** GET /api/services/instruments *)
Definition ListInstruments (searchParams : URLSearchParams)
  : HttpResponse.t (Data.t JSObject.value) :=
  match get "assetClass" searchParams with
  | None => HttpResponse.json (Data.mk (JSObject.Instruments []))
  | Some assetClass =>
      if negb (JS.truthy assetClass)
         || negb (JSObject.ToBoolean
                    (JSObject.Get instrumentsByAssetClass assetClass))
      then HttpResponse.json (Data.mk (JSObject.Instruments []))
      else HttpResponse.json
             (Data.mk (JSObject.Get instrumentsByAssetClass assetClass))
  end.

(** ** Vocabulary for the statements *)

(** [searchParams.delete(name)]: every pair named [name] is removed. *)
Definition delete_param (name : string) (searchParams : URLSearchParams)
  : URLSearchParams :=
  List.filter (fun p => negb (String.eqb (fst p) name)) searchParams.

(** The records of the response to GET /api/stocks. *)
Definition records (searchParams : URLSearchParams) : list Stock.t :=
  match HttpResponse.body (ListStocks searchParams) with
  | Some b => Body.data b
  | None => []
  end.

(** The text the search string is looked up in. *)
Definition haystack (stock : Stock.t) : string :=
  Stock.ticker stock +:+ " " +:+ Stock.company stock.

(** [s], letter case set aside, occurs in [h]: some substring of [h] and
    [s] have the same lower-case form. *)
Definition occurs_ignoring_case (s h : string) : Prop :=
  ∃ pre u post, h = pre +:+ u +:+ post ∧ JS.toLowerCase u = JS.toLowerCase s.

(** The tests of the filter callback, one per [if (...) return false]
    (two for the change direction), each negated. *)

Definition search_ok (search : string) (stock : Stock.t) : bool :=
  negb (JS.truthy search
        && negb (JS.includes (JS.toLowerCase (haystack stock)) search)).

Definition sector_ok (sector : string) (stock : Stock.t) : bool :=
  negb (negb (String.eqb sector "All")
        && negb (String.eqb (Stock.sector stock) sector)).

Definition rating_ok (rating : string) (stock : Stock.t) : bool :=
  negb (negb (String.eqb rating "All")
        && negb (String.eqb (Stock.rating_str (Stock.rating stock)) rating)).

Definition change_ok (change : string) (stock : Stock.t) : bool :=
  negb (String.eqb change "positive" && JS.le (Stock.changePercent stock) 0)
  && negb (String.eqb change "negative" && JS.ge (Stock.changePercent stock) 0).

Definition min_ok (bound : option float) (v : float) : bool :=
  negb (defined_and bound (fun m => JS.lt v m)).

Definition max_ok (bound : option float) (v : float) : bool :=
  negb (defined_and bound (fun m => JS.gt v m)).

(** The four numeric bounds: the parameter that carries each, the field
    it is compared with, and the comparison a record passes ([>=] for a
    minimum, [<=] for a maximum). *)
Inductive Bound := MinPrice | MaxPrice | MinCap | MaxCap.

Definition bound_param (b : Bound) : string :=
  match b with
  | MinPrice => "minPrice"
  | MaxPrice => "maxPrice"
  | MinCap => "minCap"
  | MaxCap => "maxCap"
  end.

Definition bound_field (b : Bound) (stock : Stock.t) : float :=
  match b with
  | MinPrice | MaxPrice => Stock.price stock
  | MinCap | MaxCap => Stock.marketCap stock
  end.

Definition within (b : Bound) (v m : float) : bool :=
  match b with
  | MinPrice | MinCap => JS.ge v m
  | MaxPrice | MaxCap => JS.le v m
  end.

(** A bound is supplied when the string is not blank and reads as a
    number; anything else is no bound. *)
Definition numeric (s : string) : Prop :=
  JS.trim s ≠ "" ∧ JS.isNaN (JS.Number s) = false.

(** The numbers of a record that the filters compare are numbers proper. *)
Definition decimal_fields (stock : Stock.t) : Prop :=
  JS.isNaN (Stock.price stock) = false
  ∧ JS.isNaN (Stock.changePercent stock) = false
  ∧ JS.isNaN (Stock.marketCap stock) = false.

(** A record satisfies every active filter of a request, in the words of
    the specification: one field per predicate. *)
Record accepts (searchParams : URLSearchParams) (stock : Stock.t) : Prop := {
  accepts_search : ∀ s,
    get "search" searchParams = Some s → s ≠ "" →
    occurs_ignoring_case s (haystack stock);
  accepts_sector : ∀ s,
    get "sector" searchParams = Some s → s ≠ "All" → Stock.sector stock = s;
  accepts_rating : ∀ s,
    get "rating" searchParams = Some s → s ≠ "All" →
    Stock.rating_str (Stock.rating stock) = s;
  accepts_positive :
    get "change" searchParams = Some "positive" →
    JS.gt (Stock.changePercent stock) 0 = true;
  accepts_negative :
    get "change" searchParams = Some "negative" →
    JS.lt (Stock.changePercent stock) 0 = true;
  accepts_bound : ∀ b s,
    get (bound_param b) searchParams = Some s → numeric s →
    within b (bound_field b stock) (JS.Number s) = true
}.

(** The test of the callback for each bound. *)
Definition bound_ok (b : Bound) (f : Filters) (stock : Stock.t) : bool :=
  match b with
  | MinPrice => min_ok (minPrice f) (Stock.price stock)
  | MaxPrice => max_ok (maxPrice f) (Stock.price stock)
  | MinCap => min_ok (minCap f) (Stock.marketCap stock)
  | MaxCap => max_ok (maxCap f) (Stock.marketCap stock)
  end.

(** The comparison of the callback that rejects a record: [<] against a
    minimum, [>] against a maximum. *)
Definition outside (b : Bound) (v m : float) : bool :=
  match b with
  | MinPrice | MinCap => JS.lt v m
  | MaxPrice | MaxCap => JS.gt v m
  end.

(** The filters of the request: the parameter each one reads and its test
    in the callback. *)
Inductive Filter := Search | Sector | Rating | Change | Bounded (b : Bound).

Definition filter_param (t : Filter) : string :=
  match t with
  | Search => "search"
  | Sector => "sector"
  | Rating => "rating"
  | Change => "change"
  | Bounded b => bound_param b
  end.

Definition filter_ok (t : Filter) (f : Filters) (stock : Stock.t) : bool :=
  match t with
  | Search => search_ok (search f) stock
  | Sector => sector_ok (sector f) stock
  | Rating => rating_ok (rating f) stock
  | Change => change_ok (change f) stock
  | Bounded b => bound_ok b f stock
  end.


(** ** Records used in the examples *)

(** The first and the twenty-sixth record of the store, and the third
    bond. *)
Definition ALNA : Stock.t :=
  Stock.mk "stk-001" "ALNA" "Aluna Energy"
    "Energy" 84.12%float 1.84%float 5230000%float 24800000000%float
    Stock.Buy "2026-02-11T14:12:00Z".

Definition ZEND : Stock.t :=
  Stock.mk "stk-026" "ZEND" "Zendara Software"
    "Technology" 188.56%float 0.44%float 5210000%float 112000000000%float
    Stock.Buy "2026-02-11T14:12:00Z".

Definition bond_003 : Bond.t :=
  Bond.mk "bond-003" "Solara Grid 2040" "Solara Power Holdings"
    Bond.A 4.4%float "2040-11-30" 4.86%float 10.6%float
    96.4%float Bond.USD (Some "2035-11-30") "Utilities" 1500000000%float
    "2026-02-11T14:02:00Z".

(** A record whose change-percent is exactly 0; the store holds none. *)
Definition unchanged : Stock.t :=
  Stock.mk "stk-000" "FLAT" "Flat Holdings"
    "Financials" 10%float 0%float 1000000%float 1000000000%float
    Stock.Hold "2026-02-11T14:00:00Z".

(** ** The pages that call the handlers

    The fetchers of the pages send a request and read the response.  A
    request reaches its handler with the pairs the fetcher wrote: the
    query string of [fetchStocks] is written by [URLSearchParams] and read
    back by it, and the other fetchers splice a string into the address,
    which carries it unchanged when it has unreserved characters only.
    Every number of the store is finite and not -0, so the JSON text of a
    body holds the body. *)

(** What a fetcher gives back: the parsed body, or the error it throws. *)
Inductive result (A : Type) :=
| Returned (a : A)
| Thrown (message : string).
Arguments Returned {A}.
Arguments Thrown {A}.

(** [response.ok]: the status is in the range 200-299. *)
Definition ok {A} (response : HttpResponse.t A) : bool :=
  (200 <=? HttpResponse.status response)%Z
  && (HttpResponse.status response <=? 299)%Z.

(** [if (!response.ok) throw new Error(message)] followed by
    [return await response.json()]; a response without a body has no JSON
    text to parse. *)
Definition json_or_throw {A} (message : string) (response : HttpResponse.t A)
  : result A :=
  if negb (ok response) then Thrown message
  else match HttpResponse.body response with
       | Some b => Returned b
       | None => Thrown "Unexpected end of JSON input"
       end.

(** The characters that stand for themselves anywhere in an address:
    letters, digits, [-], [.], [_] and [~]. *)
Definition unreserved (c : ascii) : bool :=
  JS.in_range 65 90 c || JS.in_range 97 122 c || JS.is_digit c
  || Ascii.eqb c "-" || Ascii.eqb c "." || Ascii.eqb c "_" || Ascii.eqb c "~".

Fixpoint all_unreserved (s : string) : bool :=
  match s with
  | EmptyString => true
  | String c s' => unreserved c && all_unreserved s'
  end.

(** The two dot segments.  An address does not carry them: as a path
    segment [.] is dropped and [..] removes the segment before it, so that
    [/api/bonds/.] is the address [/api/bonds/]. *)
Definition dot_segment (s : string) : bool :=
  String.eqb s "." || String.eqb s "..".

(** A string that an address carries as it is, whether spliced in as one
    path segment or as one parameter value: not empty, made of unreserved
    characters only (so without [/], [?], [#], [%], [&], [+] or a space,
    which an address cuts at, decodes or escapes) and not a dot segment. *)
Definition spliceable (s : string) : bool :=
  JS.truthy s && all_unreserved s && negb (dot_segment s).

(** [params.set(name, value)]: the first pair named [name] takes the value
    and the other pairs of that name go; without such a pair one is
    appended. *)
Fixpoint params_set (name value : string) (params : URLSearchParams)
  : URLSearchParams :=
  match params with
  | [] => [(name, value)]
  | (k, v) :: rest =>
      if String.eqb k name then (name, value) :: delete_param name rest
      else (k, v) :: params_set name value rest
  end.

Module StocksPage.

(** [type Filters]: the state of the filter panel; every field holds the
    string of its input. *)
Record Filters := mkFilters {
  search : string;
  sector : string;
  rating : string;
  change : string;
  minPrice : string;
  maxPrice : string;
  minCap : string;
  maxCap : string
}.

Definition defaultFilters : Filters :=
  mkFilters "" "All" "All" "any" "" "" "" "".

(** [keyof Filters] *)
Inductive Key :=
| KSearch | KSector | KRating | KChange
| KMinPrice | KMaxPrice | KMinCap | KMaxCap.

Definition key_name (key : Key) : string :=
  match key with
  | KSearch => "search"
  | KSector => "sector"
  | KRating => "rating"
  | KChange => "change"
  | KMinPrice => "minPrice"
  | KMaxPrice => "maxPrice"
  | KMinCap => "minCap"
  | KMaxCap => "maxCap"
  end.

(** [filters[key]] *)
Definition field (key : Key) (filters : Filters) : string :=
  match key with
  | KSearch => search filters
  | KSector => sector filters
  | KRating => rating filters
  | KChange => change filters
  | KMinPrice => minPrice filters
  | KMaxPrice => maxPrice filters
  | KMinCap => minCap filters
  | KMaxCap => maxCap filters
  end.

(** [updateFilter]: the next state is [{ ...prev, [key]: value }]. *)
Definition updateFilter (key : Key) (value : string) (prev : Filters)
  : Filters :=
  match key with
  | KSearch =>
      mkFilters value (sector prev) (rating prev) (change prev)
        (minPrice prev) (maxPrice prev) (minCap prev) (maxCap prev)
  | KSector =>
      mkFilters (search prev) value (rating prev) (change prev)
        (minPrice prev) (maxPrice prev) (minCap prev) (maxCap prev)
  | KRating =>
      mkFilters (search prev) (sector prev) value (change prev)
        (minPrice prev) (maxPrice prev) (minCap prev) (maxCap prev)
  | KChange =>
      mkFilters (search prev) (sector prev) (rating prev) value
        (minPrice prev) (maxPrice prev) (minCap prev) (maxCap prev)
  | KMinPrice =>
      mkFilters (search prev) (sector prev) (rating prev) (change prev)
        value (maxPrice prev) (minCap prev) (maxCap prev)
  | KMaxPrice =>
      mkFilters (search prev) (sector prev) (rating prev) (change prev)
        (minPrice prev) value (minCap prev) (maxCap prev)
  | KMinCap =>
      mkFilters (search prev) (sector prev) (rating prev) (change prev)
        (minPrice prev) (maxPrice prev) value (maxCap prev)
  | KMaxCap =>
      mkFilters (search prev) (sector prev) (rating prev) (change prev)
        (minPrice prev) (maxPrice prev) (minCap prev) value
  end.

(** [resetFilters]: the next state is [defaultFilters]. *)
Definition resetFilters (prev : Filters) : Filters := defaultFilters.

(** The parameters [fetchStocks] writes: a [URLSearchParams] that starts
    empty and takes one [set] per [if] that holds, in the order of the
    source. *)
Definition fetchStocks_params (filters : Filters) : URLSearchParams :=
  let params := [] in
  let params :=
    if JS.truthy (search filters)
    then params_set "search" (search filters) params else params in
  let params :=
    if negb (String.eqb (sector filters) "All")
    then params_set "sector" (sector filters) params else params in
  let params :=
    if negb (String.eqb (rating filters) "All")
    then params_set "rating" (rating filters) params else params in
  let params :=
    if negb (String.eqb (change filters) "any")
    then params_set "change" (change filters) params else params in
  let params :=
    if JS.truthy (minPrice filters)
    then params_set "minPrice" (minPrice filters) params else params in
  let params :=
    if JS.truthy (maxPrice filters)
    then params_set "maxPrice" (maxPrice filters) params else params in
  let params :=
    if JS.truthy (minCap filters)
    then params_set "minCap" (minCap filters) params else params in
  let params :=
    if JS.truthy (maxCap filters)
    then params_set "maxCap" (maxCap filters) params else params in
  params.

Definition fetchStocks (filters : Filters)
  : result (Body.t (list Stock.t) StocksMeta.t) :=
  json_or_throw "Unable to load stocks" (ListStocks (fetchStocks_params filters)).

(** The class of the change cell: [value >= 0 ? 'trend up' : 'trend down']. *)
Definition trend (value : float) : string :=
  if JS.ge value 0 then "trend up" else "trend down".

End StocksPage.

Module AboutPage.

Definition fetchBondOptions
  : result (Body.t (list BondOption.t) BondsMeta.t) :=
  json_or_throw "Unable to load bond options" ListBondSummaries.

(** The address is [/api/bonds/] followed by [bondId], and the handler
    reads the id back from the last segment of the path.  For a [spliceable]
    id that segment is [bondId] itself, which is the case embedded here;
    any other id makes another address (a query or a fragment is cut off, a
    dot segment resolved, an escape decoded, an empty segment answered by
    the list of bonds), so the facts about this function are stated for
    [spliceable] ids only. *)
Definition fetchBondDetail (bondId : string) : result (Data.t Bond.t) :=
  json_or_throw "Unable to load bond detail" (GetBondDetail bondId).

(** [options.find((option) => option.id === selectedBondId)], with [None]
    for a selection that is [undefined]. *)
Definition selectedOption (options : list BondOption.t)
    (selectedBondId : option string) : option BondOption.t :=
  List.find
    (fun opt =>
       match selectedBondId with
       | Some id => String.eqb (BondOption.id opt) id
       | None => false
       end)
    options.

(** The name in the footer of the card: [selectedOption?.name ?? bond.name]. *)
Definition selected_name (options : list BondOption.t)
    (selectedBondId : option string) (bond : Bond.t) : string :=
  match selectedOption options selectedBondId with
  | Some opt => BondOption.name opt
  | None => Bond.name bond
  end.

End AboutPage.

Module ServicesPage.

(** The values of [z.enum] for the asset class of the form. *)
Definition assetClass_values : list string :=
  [ "equities"; "fixed-income"; "alternatives"; "multi-asset" ].

(** What [response.json()] reads for the [data] a handler passed to
    [HttpResponse.json]: an array travels as it is, [JSON.stringify] leaves
    out a property whose value is [undefined] or a function, and
    [Object.prototype], which has no enumerable property, travels as an
    empty object. *)
Inductive parsed :=
| Missing
| Array (l : list Instrument.t)
| EmptyObject.

Definition JSON_roundtrip (v : JSObject.value) : parsed :=
  match v with
  | JSObject.Undefined => Missing
  | JSObject.Instruments l => Array l
  | JSObject.BuiltinFunction _ => Missing
  | JSObject.ObjectPrototype => EmptyObject
  end.


(** The address ends in [?assetClass=] followed by [assetClass], and the
    handler reads the class back from the query.  For a [spliceable] class
    the parameter read back is [assetClass] itself, which is the case
    embedded here. *)
Definition fetchInstruments (assetClass : string) : result (Data.t parsed) :=
  match json_or_throw "Unable to load instruments"
          (ListInstruments [("assetClass", assetClass)]) with
  | Returned b => Returned (Data.mk (JSON_roundtrip (Data.data b)))
  | Thrown message => Thrown message
  end.

(** The query function of the page, [() => fetchInstruments(assetClass!)]:
    the watched field is a value of the form or [undefined], and the
    template literal writes [undefined] as the word. *)
Definition instrumentsQuery (assetClass : option string)
  : result (Data.t parsed) :=
  fetchInstruments (default "undefined" assetClass).

End ServicesPage.

(** The value of a field of the filter panel that asks for nothing:
    [fetchStocks] writes a parameter for a field unless the field holds
    it. *)
Definition neutral (key : StocksPage.Key) : string :=
  match key with
  | StocksPage.KSector | StocksPage.KRating => "All"
  | StocksPage.KChange => "any"
  | _ => ""
  end.

(** * Proofs *)

(** ** Facts about the comparison of numbers *)

Section Comparison.

Lemma SFcompare_swap (x y : spec_float) :
  SFcompare y x = CompOpp <$> SFcompare x y.
Proof.
  destruct x as [[]|[]| |[] mx ex], y as [[]|[]| |[] my ey];
    try reflexivity; cbn [SFcompare fmap option_fmap option_map];
    change (PosDef.Pos.compare_cont Eq my mx) with (Pos.compare my mx);
    change (PosDef.Pos.compare_cont Eq mx my) with (Pos.compare mx my);
    rewrite (Z.compare_antisym ex ey), (Pos.compare_antisym mx my);
    destruct (ex ?= ey)%Z; cbn; rewrite ?CompOpp_involutive; reflexivity.
Qed.

Lemma SFcompare_None (x y : spec_float) :
  SFcompare x y = None ↔ x = S754_nan ∨ y = S754_nan.
Proof.
  destruct x as [[]|[]| |[] mx ex], y as [[]|[]| |[] my ey]; cbn;
    try (split; [discriminate | intros [?|?]; discriminate]);
    try (split; [auto | reflexivity]).
  all: destruct (_ ?= _)%Z; split; try discriminate; intros [?|?]; discriminate.
Qed.

Lemma SFcompare_refl (x : spec_float) :
  x ≠ S754_nan → SFcompare x x = Some Eq.
Proof.
  destruct x as [[]|[]| |[] mx ex]; intros H; try reflexivity;
    try congruence; cbn; by rewrite Z.compare_refl, Pos.compare_refl.
Qed.

Lemma isNaN_spec (a : float) : JS.isNaN a = true ↔ Prim2SF a = S754_nan.
Proof.
  unfold JS.isNaN, is_nan. rewrite FloatAxioms.eqb_spec. unfold SFeqb. split.
  - intros H. destruct (Prim2SF a) as [sa|sa| |sa ma ea] eqn:E; [| |done|];
      rewrite SFcompare_refl in H by discriminate; discriminate.
  - intros ->. reflexivity.
Qed.

Lemma isNaN_false (a : float) : JS.isNaN a = false ↔ Prim2SF a ≠ S754_nan.
Proof.
  rewrite <- isNaN_spec. destruct (JS.isNaN a); split; congruence.
Qed.

(** A comparison with NaN on either side is false. *)
Lemma lt_NaN_r (a b : float) : JS.isNaN b = true → JS.lt a b = false.
Proof.
  intros H%isNaN_spec. unfold JS.lt. rewrite ltb_spec. unfold SFltb.
  rewrite H. destruct (Prim2SF a) as [[]|[]| |[]]; reflexivity.
Qed.

Lemma lt_NaN_l (a b : float) : JS.isNaN a = true → JS.lt a b = false.
Proof.
  intros H%isNaN_spec. unfold JS.lt. rewrite ltb_spec. unfold SFltb.
  rewrite H. reflexivity.
Qed.

Lemma gt_NaN_r (a b : float) : JS.isNaN b = true → JS.gt a b = false.
Proof. apply lt_NaN_l. Qed.

(** On numbers other than NaN the order is total: [!(a < b)] is [a >= b]
    and [!(a <= b)] is [a > b]. *)
Lemma not_lt_ge (a b : float) :
  JS.isNaN a = false → JS.isNaN b = false → negb (JS.lt a b) = JS.ge a b.
Proof.
  intros Ha%isNaN_false Hb%isNaN_false. unfold JS.lt, JS.ge.
  rewrite ltb_spec, leb_spec. unfold SFltb, SFleb.
  rewrite (SFcompare_swap (Prim2SF a) (Prim2SF b)).
  destruct (SFcompare (Prim2SF a) (Prim2SF b)) as [[]|] eqn:E; try reflexivity.
  apply SFcompare_None in E as [|]; done.
Qed.

Lemma not_gt_le (a b : float) :
  JS.isNaN a = false → JS.isNaN b = false → negb (JS.gt a b) = JS.le a b.
Proof. intros Ha Hb. apply (not_lt_ge b a); done. Qed.

Lemma not_le_gt (a b : float) :
  JS.isNaN a = false → JS.isNaN b = false → negb (JS.le a b) = JS.gt a b.
Proof.
  intros Ha Hb. change (JS.le a b) with (JS.ge b a).
  rewrite <- (not_lt_ge b a) by done. by rewrite negb_involutive.
Qed.

Lemma not_ge_lt (a b : float) :
  JS.isNaN a = false → JS.isNaN b = false → negb (JS.ge a b) = JS.lt a b.
Proof. intros Ha Hb. apply (not_le_gt b a); done. Qed.

(** Equal numbers ([===]) are ordered neither way. *)
Lemma eq_not_lt (a b : float) :
  PrimFloat.eqb a b = true → JS.lt a b = false ∧ JS.gt a b = false.
Proof.
  rewrite FloatAxioms.eqb_spec. unfold SFeqb, JS.lt, JS.gt.
  rewrite !ltb_spec. unfold SFltb.
  rewrite (SFcompare_swap (Prim2SF a) (Prim2SF b)).
  destruct (SFcompare (Prim2SF a) (Prim2SF b)) as [[]|]; done.
Qed.

End Comparison.

(** ** Facts about the string built-ins *)

Section Strings.

Lemma append_nil (b : string) : "" +:+ b = b.
Proof. reflexivity. Qed.

Lemma append_cons (c : ascii) (a b : string) :
  String c a +:+ b = String c (a +:+ b).
Proof. reflexivity. Qed.

Lemma startsWith_spec (h s : string) :
  JS.startsWith h s = true ↔ ∃ post, h = s +:+ post.
Proof.
  revert h. induction s as [|a s IH]; intros h; cbn.
  - split; [intros _; by exists h | done].
  - destruct h as [|b h].
    + split; [done | intros [post ?]; discriminate].
    + rewrite andb_true_iff, IH, Ascii.eqb_eq. split.
      * intros [-> [post ->]]. by exists post.
      * intros [post H]. rewrite append_cons in H. injection H as -> ->.
        split; [done | by exists post].
Qed.

Lemma includes_spec (h s : string) :
  JS.includes h s = true ↔ ∃ pre post, h = pre +:+ s +:+ post.
Proof.
  induction h as [|b h IH]; cbn [JS.includes];
    rewrite orb_true_iff, startsWith_spec.
  - split.
    + intros [[post ->]|?]; [by exists "", post | done].
    + intros ([|c pre] & post & H); [left; by exists post | discriminate].
  - rewrite IH. split.
    + intros [[post ->]|(pre & post & ->)]; [by exists "", post|].
      by exists (String b pre), post.
    + intros ([|c pre] & post & H); [left; by exists post|].
      rewrite append_cons in H. injection H as -> ->.
      right. by exists pre, post.
Qed.

Lemma toLowerCase_app (a b : string) :
  JS.toLowerCase (a +:+ b) = JS.toLowerCase a +:+ JS.toLowerCase b.
Proof.
  induction a as [|c a IH]; [done|].
  rewrite append_cons. cbn [JS.toLowerCase]. by rewrite append_cons, IH.
Qed.

(** A split of the lower-cased string comes from a split of the string. *)
Lemma toLowerCase_split (h a b : string) :
  JS.toLowerCase h = a +:+ b →
  ∃ a' b', h = a' +:+ b' ∧ JS.toLowerCase a' = a ∧ JS.toLowerCase b' = b.
Proof.
  revert h. induction a as [|c a IH]; intros h H.
  - by exists "", h.
  - destruct h as [|d h]; [discriminate|].
    rewrite append_cons in H. cbn [JS.toLowerCase] in H. injection H as Hc H.
    destruct (IH _ H) as (a' & b' & -> & <- & <-).
    exists (String d a'), b'. cbn [JS.toLowerCase]. by rewrite Hc.
Qed.

End Strings.

Lemma includes_toLowerCase (s h : string) :
  JS.includes (JS.toLowerCase h) (JS.toLowerCase s) = true
  ↔ occurs_ignoring_case s h.
Proof.
  rewrite includes_spec. split.
  - intros (pre & post & H).
    apply toLowerCase_split in H as (pre' & r & -> & _ & H).
    apply toLowerCase_split in H as (u & post' & -> & Hu & _).
    by exists pre', u, post'.
  - intros (pre & u & post & -> & Hu).
    exists (JS.toLowerCase pre), (JS.toLowerCase post).
    by rewrite !toLowerCase_app, Hu.
Qed.

(** ** The filter callback as a conjunction of independent tests *)

Section Callback.

Implicit Types (sp : URLSearchParams) (stock : Stock.t).

Lemma stock_filter_conj (f : Filters) (stock : Stock.t) :
  stock_filter f stock =
    search_ok (search f) stock && sector_ok (sector f) stock
    && rating_ok (rating f) stock && change_ok (change f) stock
    && min_ok (minPrice f) (Stock.price stock)
    && max_ok (maxPrice f) (Stock.price stock)
    && min_ok (minCap f) (Stock.marketCap stock)
    && max_ok (maxCap f) (Stock.marketCap stock).
Proof.
  unfold stock_filter, search_ok, sector_ok, rating_ok, change_ok, min_ok,
    max_ok, haystack.
  repeat match goal with
         | |- context [if ?b then false else _] => destruct b; cbn [negb andb]
         end; reflexivity.
Qed.

Lemma get_delete_eq (name : string) (sp : URLSearchParams) :
  get name (delete_param name sp) = None.
Proof.
  unfold get, delete_param. induction sp as [|[k v] sp IH]; [done|].
  cbn [List.filter fst]. destruct (String.eqb k name) eqn:E; cbn [negb]; [done|].
  cbn [List.find fst]. by rewrite E.
Qed.

Lemma get_delete_ne (name k : string) (sp : URLSearchParams) :
  k ≠ name → get k (delete_param name sp) = get k sp.
Proof.
  intros Hne. unfold get, delete_param.
  induction sp as [|[k' v] sp IH]; [done|].
  cbn [List.filter List.find fst].
  destruct (String.eqb k' name) eqn:E; cbn [negb].
  - apply String.eqb_eq in E as ->.
    destruct (String.eqb name k) eqn:E'; [|done].
    apply String.eqb_eq in E'. congruence.
  - cbn [List.find fst]. destruct (String.eqb k' k); [done | exact IH].
Qed.

Lemma search_ok_default stock : search_ok "" stock = true.
Proof. reflexivity. Qed.

Lemma sector_ok_default stock : sector_ok "All" stock = true.
Proof. reflexivity. Qed.

Lemma rating_ok_default stock : rating_ok "All" stock = true.
Proof. reflexivity. Qed.

Lemma change_ok_default stock : change_ok "any" stock = true.
Proof. reflexivity. Qed.

Lemma min_ok_default (v : float) : min_ok None v = true.
Proof. reflexivity. Qed.

Lemma max_ok_default (v : float) : max_ok None v = true.
Proof. reflexivity. Qed.

Lemma get_delete (name k : string) sp :
  get k (delete_param name sp) = if decide (k = name) then None else get k sp.
Proof.
  case_decide as E; [subst; apply get_delete_eq | by apply get_delete_ne].
Qed.

(** Each filter is one conjunct of the callback: the callback is its test
    together with the callback of the request without its parameter. *)
Lemma stock_filter_drop (t : Filter) sp stock :
  stock_filter (filters_of sp) stock =
    filter_ok t (filters_of sp) stock
    && stock_filter (filters_of (delete_param (filter_param t) sp)) stock.
Proof.
  rewrite !stock_filter_conj.
  destruct t as [| | | |[]];
    cbn [filter_ok bound_ok filter_param bound_param filters_of
         search sector rating change minPrice maxPrice minCap maxCap];
    rewrite !get_delete; repeat (case_decide; [discriminate|]);
    rewrite decide_True by reflexivity;
    repeat (case_decide; [discriminate|]);
    cbn [fmap option_fmap option_map default from_option id parseNumber];
    rewrite ?search_ok_default, ?sector_ok_default, ?rating_ok_default,
      ?change_ok_default, ?min_ok_default, ?max_ok_default,
      ?andb_true_l, ?andb_true_r;
    apply eq_true_iff_eq; rewrite !andb_true_iff; tauto.
Qed.

End Callback.

(** ** The fixture store *)

Section Store.

Lemma stocks_decimal (stock : Stock.t) : stock ∈ stocks → decimal_fields stock.
Proof.
  revert stock. apply (Forall_forall decimal_fields stocks).
  unfold stocks, decimal_fields. repeat constructor.
Qed.

Lemma stocks_NoDup : NoDup (Stock.id <$> stocks).
Proof. apply (bool_decide_unpack _). vm_compute. exact I. Qed.

Lemma bonds_NoDup : NoDup (Bond.id <$> bonds).
Proof. apply (bool_decide_unpack _). vm_compute. exact I. Qed.

Lemma examples_in_store :
  stocks !! 0 = Some ALNA ∧ stocks !! 25 = Some ZEND
  ∧ bonds !! 2 = Some bond_003.
Proof. repeat split. Qed.

End Store.

(** ** Each test of the callback against its filter *)

Section Accepts.

Implicit Types (sp : URLSearchParams) (stock : Stock.t) (b : Bound).

Lemma numeric_dec (s : string) : {numeric s} + {¬ numeric s}.
Proof.
  unfold numeric. destruct (decide (JS.trim s = "")) as [E|E].
  - right. tauto.
  - destruct (JS.isNaN (JS.Number s)); [right | left]; intuition congruence.
Qed.

Lemma parseNumber_Some (s : string) :
  JS.trim s ≠ "" → parseNumber (Some s) = Some (JS.Number s).
Proof.
  intros H. unfold parseNumber.
  destruct (String.eqb (JS.trim s) "") eqn:E; [|done].
  by apply String.eqb_eq in E.
Qed.

Lemma parseNumber_blank (s : string) :
  JS.trim s = "" → parseNumber (Some s) = None.
Proof. intros H. unfold parseNumber. by rewrite H. Qed.

Lemma outside_within b (v m : float) :
  JS.isNaN v = false → JS.isNaN m = false →
  negb (outside b v m) = within b v m.
Proof.
  intros Hv Hm. destruct b; cbn [outside within];
    auto using not_lt_ge, not_gt_le.
Qed.

Lemma outside_NaN b (v m : float) : JS.isNaN m = true → outside b v m = false.
Proof.
  intros Hm. destruct b; cbn [outside]; auto using lt_NaN_r, gt_NaN_r.
Qed.

Lemma outside_eq b (v m : float) :
  PrimFloat.eqb v m = true → outside b v m = false.
Proof.
  intros [??]%eq_not_lt. by destruct b.
Qed.

Lemma bound_ok_filters b sp stock :
  bound_ok b (filters_of sp) stock =
    negb (defined_and (parseNumber (get (bound_param b) sp))
            (outside b (bound_field b stock))).
Proof. by destruct b. Qed.

Lemma bound_ok_numeric b sp (s : string) stock :
  get (bound_param b) sp = Some s → numeric s →
  JS.isNaN (bound_field b stock) = false →
  bound_ok b (filters_of sp) stock = within b (bound_field b stock) (JS.Number s).
Proof.
  intros Hs [Ht Hn] Hv. rewrite bound_ok_filters, Hs, parseNumber_Some by done.
  by apply outside_within.
Qed.

Lemma bound_ok_equal b sp (s : string) stock :
  get (bound_param b) sp = Some s → JS.trim s ≠ "" →
  PrimFloat.eqb (bound_field b stock) (JS.Number s) = true →
  bound_ok b (filters_of sp) stock = true.
Proof.
  intros Hs Ht He. rewrite bound_ok_filters, Hs, parseNumber_Some by done.
  cbn [defined_and]. by rewrite outside_eq.
Qed.

Lemma bound_ok_not_numeric b sp stock :
  (∀ s, get (bound_param b) sp = Some s → ¬ numeric s) →
  bound_ok b (filters_of sp) stock = true.
Proof.
  intros H. rewrite bound_ok_filters.
  destruct (get (bound_param b) sp) as [s|]; [|done].
  destruct (decide (JS.trim s = "")) as [Ht|Ht].
  - by rewrite parseNumber_blank.
  - rewrite parseNumber_Some by done. cbn [defined_and].
    rewrite outside_NaN; [done|].
    destruct (JS.isNaN (JS.Number s)) eqn:E; [done|]. by destruct (H s).
Qed.

Lemma bound_ok_iff b sp stock :
  JS.isNaN (bound_field b stock) = false →
  bound_ok b (filters_of sp) stock = true
  ↔ ∀ s, get (bound_param b) sp = Some s → numeric s →
         within b (bound_field b stock) (JS.Number s) = true.
Proof.
  intros Hv. destruct (get (bound_param b) sp) as [s|] eqn:Hs.
  - destruct (numeric_dec s) as [Hn|Hn].
    + rewrite (bound_ok_numeric b sp s) by done. split.
      * by intros H ? [= <-] _.
      * intros H. by apply H.
    + rewrite bound_ok_not_numeric.
      * split; [|done]. by intros _ ? [= <-] ?.
      * intros s'. rewrite Hs. by intros [= <-].
  - rewrite bound_ok_not_numeric; [|by intros ?; rewrite Hs]. done.
Qed.

Lemma search_ok_iff sp stock :
  search_ok (search (filters_of sp)) stock = true
  ↔ ∀ s, get "search" sp = Some s → s ≠ "" →
         occurs_ignoring_case s (haystack stock).
Proof.
  cbn [filters_of search]. unfold search_ok.
  destruct (get "search" sp) as [s|];
    cbn [fmap option_fmap option_map default from_option id].
  - destruct s as [|c s].
    + cbn. split; [|done]. by intros _ ? [= <-] ?.
    + change (JS.truthy (JS.toLowerCase (String c s))) with true.
      rewrite andb_true_l, negb_involutive, includes_toLowerCase. split.
      * by intros H ? [= <-] _.
      * intros H. by apply H.
  - cbn. done.
Qed.

Lemma eqb_sentinel_iff (d x : string) (o : option string) :
  negb (negb (String.eqb (default d o) d)
        && negb (String.eqb x (default d o))) = true
  ↔ ∀ s, o = Some s → s ≠ d → x = s.
Proof.
  destruct o as [s|]; cbn [default from_option id].
  - destruct (String.eqb_spec s d) as [->|Hne]; cbn [negb andb].
    + split; [|done]. by intros _ ? [= <-] ?.
    + rewrite negb_involutive. destruct (String.eqb_spec x s) as [->|Hx].
      * split; [|done]. by intros _ ? [= <-] _.
      * split; [done|]. intros H. by destruct Hx; apply H.
  - rewrite String.eqb_refl. cbn. done.
Qed.

Lemma sector_ok_iff sp stock :
  sector_ok (sector (filters_of sp)) stock = true
  ↔ ∀ s, get "sector" sp = Some s → s ≠ "All" → Stock.sector stock = s.
Proof. apply (eqb_sentinel_iff "All"). Qed.

Lemma rating_ok_iff sp stock :
  rating_ok (rating (filters_of sp)) stock = true
  ↔ ∀ s, get "rating" sp = Some s → s ≠ "All" →
         Stock.rating_str (Stock.rating stock) = s.
Proof. apply (eqb_sentinel_iff "All"). Qed.

Lemma change_ok_eq (change : string) stock :
  JS.isNaN (Stock.changePercent stock) = false →
  change_ok change stock =
    (if String.eqb change "positive" then JS.gt (Stock.changePercent stock) 0
     else if String.eqb change "negative" then JS.lt (Stock.changePercent stock) 0
     else true).
Proof.
  intros Hv. unfold change_ok.
  rewrite <- (not_le_gt _ 0), <- (not_ge_lt _ 0) by done.
  destruct (String.eqb_spec change "positive") as [->|?]; cbn.
  - by rewrite andb_true_r.
  - by destruct (String.eqb change "negative").
Qed.

Lemma change_ok_iff sp stock :
  JS.isNaN (Stock.changePercent stock) = false →
  change_ok (change (filters_of sp)) stock = true
  ↔ (get "change" sp = Some "positive" → JS.gt (Stock.changePercent stock) 0 = true)
    ∧ (get "change" sp = Some "negative" → JS.lt (Stock.changePercent stock) 0 = true).
Proof.
  intros Hv. rewrite change_ok_eq by done. cbn [filters_of change].
  destruct (get "change" sp) as [s|]; cbn [default from_option id]; [|by cbn].
  destruct (String.eqb_spec s "positive") as [->|H1].
  - split; [by intros ?; split | by intros [H _]; apply H].
  - destruct (String.eqb_spec s "negative") as [->|H2].
    + split; [by intros ?; split | by intros [_ H]; apply H].
    + split; [|done]. intros _. split; intros [= ?]; done.
Qed.

(** The callback decides [accepts] on every record of decimal fields. *)
Lemma stock_filter_accepts sp stock :
  decimal_fields stock →
  stock_filter (filters_of sp) stock = true ↔ accepts sp stock.
Proof.
  intros (Hp & Hc & Hm). rewrite stock_filter_conj, !andb_true_iff.
  change (min_ok (minPrice (filters_of sp)) (Stock.price stock))
    with (bound_ok MinPrice (filters_of sp) stock).
  change (max_ok (maxPrice (filters_of sp)) (Stock.price stock))
    with (bound_ok MaxPrice (filters_of sp) stock).
  change (min_ok (minCap (filters_of sp)) (Stock.marketCap stock))
    with (bound_ok MinCap (filters_of sp) stock).
  change (max_ok (maxCap (filters_of sp)) (Stock.marketCap stock))
    with (bound_ok MaxCap (filters_of sp) stock).
  rewrite search_ok_iff, sector_ok_iff, rating_ok_iff, change_ok_iff by done.
  rewrite !bound_ok_iff by done. split.
  - intros [[[[[[[? ?] ?] [? ?]] ?] ?] ?] ?]. split; try done.
    intros []; done.
  - intros [H1 H2 H3 H4 H5 H6]. repeat split; try done.
    + apply (H6 MinPrice).
    + apply (H6 MaxPrice).
    + apply (H6 MinCap).
    + apply (H6 MaxCap).
Qed.

End Accepts.

(** ** GET /api/stocks *)

Section ListStocks.

Implicit Types (sp : URLSearchParams) (stock : Stock.t) (b : Bound).

Lemma filter_sublist {A} (f : A → bool) (l : list A) :
  sublist (List.filter f l) l.
Proof.
  induction l as [|x l IH]; cbn [List.filter]; [constructor|].
  destruct (f x); by constructor.
Qed.

Lemma ListStocks_eq sp :
  ListStocks sp
  = HttpResponse.json
      (Body.mk (records sp) (StocksMeta.mk (length (records sp)) sectors)).
Proof.
  unfold records, ListStocks.
  cbn [HttpResponse.body HttpResponse.json Body.data]. reflexivity.
Qed.

Lemma elem_of_records sp stock :
  stock ∈ records sp
  ↔ stock ∈ stocks ∧ stock_filter (filters_of sp) stock = true.
Proof.
  change (records sp) with (List.filter (stock_filter (filters_of sp)) stocks).
  by rewrite !list_elem_of_In, filter_In.
Qed.

Lemma stocks_distinct : NoDup stocks.
Proof. eapply NoDup_fmap_1, stocks_NoDup. Qed.

(** C1: whatever the filter parameters, the records returned by ListStocks
    are exactly the records of the 30-record store that satisfy every
    active predicate (search, sector, rating, change direction and the four
    numeric bounds together), each once and in the order of the store. *)
Theorem C1_ListStocks_conjunction sp :
  length stocks = 30
  ∧ (∀ stock, stock ∈ records sp ↔ stock ∈ stocks ∧ accepts sp stock)
  ∧ sublist (records sp) stocks
  ∧ NoDup (records sp).
Proof.
  assert (Hsub : sublist (records sp) stocks) by apply filter_sublist.
  split; [reflexivity|]. split; [|split; [done|]].
  - intros stock. rewrite elem_of_records. split.
    + intros [Hin H]. split; [done|].
      by apply stock_filter_accepts; [apply stocks_decimal|].
    + intros [Hin H]. split; [done|].
      by apply stock_filter_accepts; [apply stocks_decimal|].
  - eapply sublist_NoDup; [apply stocks_distinct | exact Hsub].
Qed.

Lemma records_ext sp sp' :
  (∀ stock, stock_filter (filters_of sp) stock
            = stock_filter (filters_of sp') stock) →
  ListStocks sp = ListStocks sp'.
Proof.
  intros H. unfold ListStocks.
  by rewrite (List.filter_ext _ _ H).
Qed.

(** C2: the search filter accepts a record exactly when the search string,
    letter case set aside, occurs in the ticker and the company name joined
    by one space; an empty or absent search string accepts every record;
    and [zend] in any letter case finds the stock ZEND, Zendara Software. *)
Theorem C2_search_filter sp stock (s : string) :
  (get "search" sp = Some s →
   stock_filter (filters_of sp) stock = true
   ↔ occurs_ignoring_case s (Stock.ticker stock +:+ " " +:+ Stock.company stock)
     ∧ stock_filter (filters_of (delete_param "search" sp)) stock = true)
  ∧ (get "search" sp = Some "" ∨ get "search" sp = None →
     stock_filter (filters_of sp) stock
     = stock_filter (filters_of (delete_param "search" sp)) stock)
  ∧ (JS.toLowerCase s = "zend" →
     ∃ zend, records [("search", s)] = [zend]
             ∧ Stock.ticker zend = "ZEND"
             ∧ Stock.company zend = "Zendara Software").
Proof.
  pose proof (stock_filter_drop Search sp stock) as Hdrop.
  cbn [filter_ok filter_param] in Hdrop. split; [|split].
  - intros Hs. rewrite Hdrop, andb_true_iff, search_ok_iff.
    fold (haystack stock). split.
    + intros [H ?]. split; [|done]. destruct (decide (s = "")) as [->|Hne].
      * by exists "", "", (haystack stock).
      * by apply H.
    + intros [H ?]. split; [|done]. by intros ? [= <-]%(eq_trans (eq_sym Hs)).
  - intros H. rewrite Hdrop.
    replace (search_ok _ stock) with true; [done|].
    symmetry. apply search_ok_iff. by destruct H as [-> | ->]; intros ? [= <-].
  - intros Hz. eexists. split; [|split].
    + change (records [("search", s)])
        with (List.filter
                (stock_filter
                   (mkFilters (JS.toLowerCase s) "All" "All" "any"
                      None None None None)) stocks).
      rewrite Hz. vm_compute. reflexivity.
    + reflexivity.
    + reflexivity.
Qed.

Lemma C2_search_filter_witness :
  (stock_filter (filters_of [("search", "ZeNd")]) ZEND = true
   ↔ occurs_ignoring_case "ZeNd" "ZEND Zendara Software"
     ∧ stock_filter (filters_of (delete_param "search" [("search", "ZeNd")]))
         ZEND = true)
  ∧ stock_filter (filters_of [("search", "")]) ALNA
    = stock_filter (filters_of (delete_param "search" [("search", "")])) ALNA
  ∧ ∃ zend, records [("search", "ZeNd")] = [zend]
            ∧ Stock.ticker zend = "ZEND"
            ∧ Stock.company zend = "Zendara Software".
Proof.
  split; [|split].
  - apply (C2_search_filter [("search", "ZeNd")] ZEND "ZeNd"). reflexivity.
  - apply (C2_search_filter [("search", "")] ALNA ""). left. reflexivity.
  - apply (C2_search_filter [("search", "ZeNd")] ZEND "ZeNd"). reflexivity.
Defined.

(** A request whose only filter parameter is that of [t]: without it the
    callback accepts every record. *)
Lemma stock_filter_alone (t : Filter) sp stock :
  (∀ t', t' ≠ t → get (filter_param t') sp = None) →
  stock_filter (filters_of (delete_param (filter_param t) sp)) stock = true.
Proof.
  intros H.
  assert (Hd : ∀ t', get (filter_param t')
                       (delete_param (filter_param t) sp) = None).
  { intros t'. rewrite get_delete. case_decide as E; [reflexivity|].
    apply H. intros ->. by apply E. }
  rewrite stock_filter_conj. unfold filters_of.
  generalize (Hd Search), (Hd Sector), (Hd Rating), (Hd Change),
    (Hd (Bounded MinPrice)), (Hd (Bounded MaxPrice)),
    (Hd (Bounded MinCap)), (Hd (Bounded MaxCap)).
  cbn [filter_param bound_param].
  intros -> -> -> -> -> -> -> ->.
  cbn [search sector rating change minPrice maxPrice minCap maxCap
       fmap option_fmap option_map default from_option id mbind option_bind].
  by rewrite search_ok_default, sector_ok_default, rating_ok_default,
    change_ok_default, !min_ok_default, !max_ok_default.
Qed.

(** C3: with the change direction [positive] a record passes iff its
    change-percent is strictly above 0, with [negative] iff strictly below
    0, and with [any] or no direction the filter lets every record through;
    so a record whose change-percent is exactly 0 is rejected, and left out
    of the result, under both [positive] and [negative].  In a request with
    no other filter the direction decides alone: under [positive] the
    result is the records of the store above 0, under [negative] those
    below 0, and under [any] or no direction every record of the store,
    the ones at exactly 0 included. *)
Theorem C3_change_direction sp stock :
  JS.isNaN (Stock.changePercent stock) = false →
  (get "change" sp = Some "positive" →
   stock_filter (filters_of sp) stock
   = JS.gt (Stock.changePercent stock) 0
     && stock_filter (filters_of (delete_param "change" sp)) stock)
  ∧ (get "change" sp = Some "negative" →
     stock_filter (filters_of sp) stock
     = JS.lt (Stock.changePercent stock) 0
       && stock_filter (filters_of (delete_param "change" sp)) stock)
  ∧ (get "change" sp = Some "any" ∨ get "change" sp = None →
     stock_filter (filters_of sp) stock
     = stock_filter (filters_of (delete_param "change" sp)) stock)
  ∧ (PrimFloat.eqb (Stock.changePercent stock) 0 = true →
     get "change" sp = Some "positive" ∨ get "change" sp = Some "negative" →
     stock_filter (filters_of sp) stock = false ∧ stock ∉ records sp)
  ∧ ((∀ t, t ≠ Change → get (filter_param t) sp = None) →
     (get "change" sp = Some "positive" →
      stock_filter (filters_of sp) stock
      = JS.gt (Stock.changePercent stock) 0
      ∧ (stock ∈ records sp
         ↔ stock ∈ stocks ∧ JS.gt (Stock.changePercent stock) 0 = true))
     ∧ (get "change" sp = Some "negative" →
        stock_filter (filters_of sp) stock
        = JS.lt (Stock.changePercent stock) 0
        ∧ (stock ∈ records sp
           ↔ stock ∈ stocks ∧ JS.lt (Stock.changePercent stock) 0 = true))
     ∧ (get "change" sp = Some "any" ∨ get "change" sp = None →
        stock_filter (filters_of sp) stock = true
        ∧ (stock ∈ records sp ↔ stock ∈ stocks))).
Proof.
  intros Hv. pose proof (stock_filter_drop Change sp stock) as Hdrop.
  cbn [filter_ok filter_param filters_of change] in Hdrop.
  rewrite change_ok_eq in Hdrop by done.
  assert (Hpos : get "change" sp = Some "positive" →
                 stock_filter (filters_of sp) stock
                 = JS.gt (Stock.changePercent stock) 0
                   && stock_filter (filters_of (delete_param "change" sp)) stock)
    by (by intros H; rewrite H in Hdrop).
  assert (Hneg : get "change" sp = Some "negative" →
                 stock_filter (filters_of sp) stock
                 = JS.lt (Stock.changePercent stock) 0
                   && stock_filter (filters_of (delete_param "change" sp)) stock)
    by (by intros H; rewrite H in Hdrop).
  assert (Hany : get "change" sp = Some "any" ∨ get "change" sp = None →
                 stock_filter (filters_of sp) stock
                 = stock_filter (filters_of (delete_param "change" sp)) stock)
    by (by intros [H|H]; rewrite H in Hdrop).
  split; [done|]. split; [done|]. split; [done|]. split.
  - intros Hz Hc. destruct (eq_not_lt _ _ Hz) as [Hlt Hgt].
    assert (Hf : stock_filter (filters_of sp) stock = false).
    { destruct Hc as [Hc|Hc]; [rewrite (Hpos Hc) | rewrite (Hneg Hc)];
        by rewrite ?Hlt, ?Hgt. }
    split; [done|]. rewrite elem_of_records. intros [_ Hf']. congruence.
  - intros Honly. pose proof (stock_filter_alone Change sp stock Honly) as Hrest.
    cbn [filter_param] in Hrest. rewrite elem_of_records.
    split; [|split].
    + intros Hc. rewrite (Hpos Hc), Hrest, andb_true_r. by split.
    + intros Hc. rewrite (Hneg Hc), Hrest, andb_true_r. by split.
    + intros Hc. rewrite (Hany Hc), Hrest. split; [reflexivity|].
      split; [by intros [Hin _] | by intros Hin].
Qed.

Lemma C3_change_direction_witness :
  JS.isNaN (Stock.changePercent unchanged) = false
  ∧ stock_filter (filters_of [("change", "positive")]) unchanged = false
  ∧ (unchanged ∉ records [("change", "positive")])
  ∧ stock_filter (filters_of [("change", "any")]) unchanged
    = stock_filter (filters_of (delete_param "change" [("change", "any")]))
        unchanged
  ∧ stock_filter (filters_of [("change", "any")]) unchanged = true
  ∧ stock_filter (filters_of []) unchanged = true
  ∧ stock_filter (filters_of [("change", "positive")]) ALNA = true
  ∧ ALNA ∈ records [("change", "positive")]
  ∧ ALNA ∈ records [("change", "any")]
  ∧ (ALNA ∉ records [("change", "negative")]).
Proof.
  assert (H : JS.isNaN (Stock.changePercent unchanged) = false) by reflexivity.
  assert (H' : JS.isNaN (Stock.changePercent ALNA) = false) by reflexivity.
  assert (Hin : ALNA ∈ stocks)
    by exact (list_elem_of_lookup_2 stocks 0 ALNA eq_refl).
  assert (Honly : ∀ c t, t ≠ Change →
                         get (filter_param t) [("change", c)] = None)
    by (intros c [| | | |[]] Ht; try reflexivity; by destruct Ht).
  assert (Hnone : ∀ t, t ≠ Change → get (filter_param t) [] = None)
    by (intros t _; reflexivity).
  split; [exact H|].
  destruct (C3_change_direction [("change", "positive")] unchanged H)
    as (_ & _ & _ & Hz & _).
  destruct (C3_change_direction [("change", "any")] unchanged H)
    as (_ & _ & Hany & _ & Hall).
  destruct (C3_change_direction [] unchanged H) as (_ & _ & _ & _ & Hall0).
  destruct (C3_change_direction [("change", "positive")] ALNA H')
    as (_ & _ & _ & _ & Hp).
  destruct (C3_change_direction [("change", "any")] ALNA H')
    as (_ & _ & _ & _ & Ha).
  destruct (C3_change_direction [("change", "negative")] ALNA H')
    as (_ & _ & _ & _ & Hn).
  split; [apply Hz; [reflexivity | left; reflexivity]|].
  split; [apply Hz; [reflexivity | left; reflexivity]|].
  split; [apply Hany; left; reflexivity|].
  split.
  { destruct (Hall (Honly "any")) as (_ & _ & Hq).
    apply Hq. left. reflexivity. }
  split.
  { destruct (Hall0 Hnone) as (_ & _ & Hq). apply Hq. right. reflexivity. }
  destruct (Hp (Honly "positive")) as (Hq & _ & _).
  destruct (Hq eq_refl) as [Hcb Hrec].
  split; [rewrite Hcb; reflexivity|].
  split; [apply Hrec; split; [exact Hin | reflexivity]|].
  split.
  { destruct (Ha (Honly "any")) as (_ & _ & Hq').
    destruct (Hq' (or_introl eq_refl)) as [_ Hrec']. apply Hrec'. exact Hin. }
  destruct (Hn (Honly "negative")) as (_ & Hq' & _).
  destruct (Hq' eq_refl) as [_ Hrec']. intros Hr.
  apply Hrec' in Hr as [_ Hr]. discriminate Hr.
Defined.

(** C4: the price and market-cap bounds are inclusive.  With a valid
    number supplied for a bound, a record passes that bound iff its price
    (its market cap) is [>=] the minimum, [<=] the maximum; a record whose
    value equals the bound passes it.  In a request with no other filter
    the bound decides alone: the result is the records of the store within
    the bound, and a record of the store whose value equals the bound is
    returned. *)
Theorem C4_inclusive_bounds b sp (s : string) stock :
  get (bound_param b) sp = Some s → numeric s →
  (JS.isNaN (bound_field b stock) = false →
   stock_filter (filters_of sp) stock
   = within b (bound_field b stock) (JS.Number s)
     && stock_filter (filters_of (delete_param (bound_param b) sp)) stock)
  ∧ (PrimFloat.eqb (bound_field b stock) (JS.Number s) = true →
     stock_filter (filters_of sp) stock
     = stock_filter (filters_of (delete_param (bound_param b) sp)) stock)
  ∧ ((∀ t, t ≠ Bounded b → get (filter_param t) sp = None) →
     (JS.isNaN (bound_field b stock) = false →
      stock_filter (filters_of sp) stock
      = within b (bound_field b stock) (JS.Number s)
      ∧ (stock ∈ records sp
         ↔ stock ∈ stocks
           ∧ within b (bound_field b stock) (JS.Number s) = true))
     ∧ (PrimFloat.eqb (bound_field b stock) (JS.Number s) = true →
        stock_filter (filters_of sp) stock = true
        ∧ (stock ∈ stocks → stock ∈ records sp))).
Proof.
  intros Hs Hn. pose proof (stock_filter_drop (Bounded b) sp stock) as Hdrop.
  cbn [filter_ok filter_param] in Hdrop. split; [|split].
  - intros Hv. by rewrite Hdrop, (bound_ok_numeric b sp s).
  - intros He. by rewrite Hdrop, (bound_ok_equal b sp s) by (done || apply Hn).
  - intros Honly.
    pose proof (stock_filter_alone (Bounded b) sp stock Honly) as Hrest.
    cbn [filter_param] in Hrest. rewrite elem_of_records, Hdrop, Hrest.
    rewrite andb_true_r. split.
    + intros Hv. rewrite (bound_ok_numeric b sp s) by done. by split.
    + intros He. rewrite (bound_ok_equal b sp s) by (done || apply Hn).
      split; [reflexivity|]. by intros Hin.
Qed.

Lemma C4_inclusive_bounds_witness :
  get "minPrice" [("minPrice", "84.12")] = Some "84.12"
  ∧ numeric "84.12"
  ∧ PrimFloat.eqb (Stock.price ALNA) (JS.Number "84.12") = true
  ∧ stock_filter (filters_of [("minPrice", "84.12")]) ALNA
    = stock_filter
        (filters_of (delete_param "minPrice" [("minPrice", "84.12")])) ALNA
  ∧ stock_filter (filters_of [("minPrice", "84.12")]) ZEND
    = JS.ge (Stock.price ZEND) (JS.Number "84.12")
      && stock_filter
           (filters_of (delete_param "minPrice" [("minPrice", "84.12")])) ZEND
  ∧ stock_filter (filters_of [("minPrice", "84.12")]) ALNA = true
  ∧ ALNA ∈ records [("minPrice", "84.12")]
  ∧ ALNA ∈ records [("maxPrice", "84.12")]
  ∧ (ZEND ∈ records [("minPrice", "84.12")]
     ↔ ZEND ∈ stocks
       ∧ JS.ge (Stock.price ZEND) (JS.Number "84.12") = true).
Proof.
  assert (Hn : numeric "84.12")
    by (split; [vm_compute; discriminate | vm_compute; reflexivity]).
  assert (He : PrimFloat.eqb (Stock.price ALNA) (JS.Number "84.12") = true)
    by (vm_compute; reflexivity).
  assert (Hin : ALNA ∈ stocks)
    by exact (list_elem_of_lookup_2 stocks 0 ALNA eq_refl).
  assert (Hmin : ∀ t, t ≠ Bounded MinPrice →
                      get (filter_param t) [("minPrice", "84.12")] = None)
    by (intros [| | | |[]] Ht; try reflexivity; by destruct Ht).
  assert (Hmax : ∀ t, t ≠ Bounded MaxPrice →
                      get (filter_param t) [("maxPrice", "84.12")] = None)
    by (intros [| | | |[]] Ht; try reflexivity; by destruct Ht).
  split; [reflexivity|]. split; [exact Hn|]. split; [exact He|].
  destruct (C4_inclusive_bounds MinPrice [("minPrice", "84.12")] "84.12"
              ALNA eq_refl Hn) as (_ & Hrel & Habs).
  destruct (C4_inclusive_bounds MinPrice [("minPrice", "84.12")] "84.12"
              ZEND eq_refl Hn) as (Hrel' & _ & Habs').
  destruct (C4_inclusive_bounds MaxPrice [("maxPrice", "84.12")] "84.12"
              ALNA eq_refl Hn) as (_ & _ & Habs'').
  split; [apply Hrel; exact He|].
  split; [apply Hrel'; reflexivity|].
  destruct (Habs Hmin) as [_ Heq]. destruct (Heq He) as [Hcb Hrec].
  split; [exact Hcb|]. split; [apply Hrec; exact Hin|].
  split.
  { destruct (Habs'' Hmax) as [_ Heq'']. destruct (Heq'' He) as [_ Hrec''].
    apply Hrec''. exact Hin. }
  destruct (Habs' Hmin) as [Hw _]. destruct (Hw eq_refl) as [_ Hrec'].
  exact Hrec'.
Defined.

(** C5: a bound that does not read as a number is no bound.  With a
    malformed string, an empty (or blank) string, or no string for
    minPrice, maxPrice, minCap or maxCap, the response is the response to
    the same request without that parameter; and the response is never an
    error. *)
Theorem C5_malformed_bound b sp :
  HttpResponse.status (ListStocks sp) = 200%Z
  ∧ (∀ s, get (bound_param b) sp = Some s →
          JS.isNaN (JS.Number s) = true →
          ListStocks sp = ListStocks (delete_param (bound_param b) sp))
  ∧ (∀ s, get (bound_param b) sp = Some s → JS.trim s = "" →
          ListStocks sp = ListStocks (delete_param (bound_param b) sp))
  ∧ (get (bound_param b) sp = None →
     ListStocks sp = ListStocks (delete_param (bound_param b) sp)).
Proof.
  assert (Hdrop : (∀ s, get (bound_param b) sp = Some s → ¬ numeric s) →
                  ListStocks sp = ListStocks (delete_param (bound_param b) sp)).
  { intros H. apply records_ext. intros stock.
    rewrite (stock_filter_drop (Bounded b) sp stock).
    cbn [filter_ok filter_param]. by rewrite bound_ok_not_numeric. }
  split; [reflexivity|]. split; [|split].
  - intros s Hs Hnan. apply Hdrop. intros s'. rewrite Hs. intros [= <-] [_ ?].
    congruence.
  - intros s Hs Hblank. apply Hdrop. intros s'. rewrite Hs.
    intros [= <-] [? _]. contradiction.
  - intros Hs. apply Hdrop. intros s'. rewrite Hs. discriminate.
Qed.

Lemma C5_malformed_bound_witness :
  JS.isNaN (JS.Number "abc") = true
  ∧ ListStocks [("maxPrice", "abc"); ("rating", "Sell")]
    = ListStocks (delete_param "maxPrice" [("maxPrice", "abc"); ("rating", "Sell")]).
Proof.
  assert (Hn : JS.isNaN (JS.Number "abc") = true) by (vm_compute; reflexivity).
  split; [exact Hn|].
  destruct (C5_malformed_bound MaxPrice [("maxPrice", "abc"); ("rating", "Sell")])
    as (_ & H & _ & _).
  apply (H "abc"); [reflexivity | exact Hn].
Defined.

End ListStocks.

(** ** The sectors *)

Section Sectors.

Implicit Types (x y : string) (l s : list string).

Lemma Array_from_Set_snoc l x :
  Array_from_Set (l ++ [x]) = Set_add (Array_from_Set l) x.
Proof. unfold Array_from_Set. by rewrite foldl_app. Qed.

Lemma elem_of_Set_add s x y : y ∈ Set_add s x ↔ y ∈ s ∨ y = x.
Proof.
  unfold Set_add. case_bool_decide as Hx.
  - split; [by left | by intros [?| ->]].
  - rewrite elem_of_app, list_elem_of_singleton. done.
Qed.

Lemma NoDup_Set_add s x : NoDup s → NoDup (Set_add s x).
Proof.
  intros Hs. unfold Set_add. case_bool_decide as Hx; [done|].
  apply NoDup_app. split; [done|]. split; [|apply NoDup_singleton].
  intros y Hy ->%list_elem_of_singleton. done.
Qed.

(** The array holds the elements of the list, each once. *)
Lemma elem_of_Array_from_Set l x : x ∈ Array_from_Set l ↔ x ∈ l.
Proof.
  induction l as [|y l IH] using rev_ind; [done|].
  rewrite Array_from_Set_snoc, elem_of_Set_add, IH, elem_of_app,
    list_elem_of_singleton. done.
Qed.

Lemma NoDup_Array_from_Set l : NoDup (Array_from_Set l).
Proof.
  induction l as [|y l IH] using rev_ind; [constructor|].
  rewrite Array_from_Set_snoc. by apply NoDup_Set_add.
Qed.






Lemma sectors_eq :
  sectors = [ "Energy"; "Technology"; "Industrials"; "Consumer Staples";
              "Consumer Discretionary"; "Utilities"; "Healthcare";
              "Financials"; "Communication Services"; "Materials" ].
Proof. vm_compute. reflexivity. Qed.

Lemma elem_of_sectors x :
  x ∈ sectors ↔ ∃ stock, stock ∈ stocks ∧ Stock.sector stock = x.
Proof.
  unfold sectors. rewrite elem_of_Array_from_Set, list_elem_of_fmap.
  split; intros (stock & ? & ?); by exists stock.
Qed.

(** C6: whatever the filter parameters, the sectors of the metadata are
    the distinct sector values of the whole store, not of the result, and
    the total is the number of records returned; a request for the sector
    Energy returns two records and still all ten sectors. *)
Theorem C6_sectors_meta (sp : URLSearchParams) :
  (∃ b, HttpResponse.body (ListStocks sp) = Some b
        ∧ StocksMeta.sectors (Body.meta b) = sectors
        ∧ StocksMeta.total (Body.meta b) = length (Body.data b))
  ∧ NoDup sectors
  ∧ (∀ x, x ∈ sectors ↔ ∃ stock, stock ∈ stocks ∧ Stock.sector stock = x)
  ∧ (∃ b, HttpResponse.body (ListStocks [("sector", "Energy")]) = Some b
          ∧ Stock.ticker <$> Body.data b = ["ALNA"; "IONA"]
          ∧ StocksMeta.total (Body.meta b) = 2
          ∧ StocksMeta.sectors (Body.meta b)
            = [ "Energy"; "Technology"; "Industrials"; "Consumer Staples";
                "Consumer Discretionary"; "Utilities"; "Healthcare";
                "Financials"; "Communication Services"; "Materials" ]).
Proof.
  split.
  { rewrite ListStocks_eq. eexists. split; [reflexivity|].
    cbn [Body.meta Body.data StocksMeta.total StocksMeta.sectors].
    split; reflexivity. }
  split; [apply NoDup_Array_from_Set|].
  split; [apply elem_of_sectors|].
  eexists. split; [reflexivity|].
  split; [vm_compute; reflexivity|].
  split; [vm_compute; reflexivity|]. apply sectors_eq.
Qed.



End Sectors.

(** ** Bonds, the brief and the instruments *)

Section Lookups.

Lemma find_unique {A} (key : A → string) (l : list A) (x : A) :
  NoDup (key <$> l) → x ∈ l →
  List.find (fun item => String.eqb (key item) (key x)) l = Some x.
Proof.
  induction l as [|y l IH]; [by intros _ ?%elem_of_nil|].
  rewrite fmap_cons, NoDup_cons. intros [Hy Hl] Hx. cbn [List.find].
  destruct (String.eqb_spec (key y) (key x)) as [E|E].
  - apply elem_of_cons in Hx as [->|Hx]; [done|].
    destruct Hy. rewrite E. by apply list_elem_of_fmap_2.
  - apply elem_of_cons in Hx as [->|Hx]; [done|]. by apply IH.
Qed.

Lemma find_none {A} (key : A → string) (l : list A) (k : string) :
  List.find (fun item => String.eqb (key item) k) l = None
  ↔ ¬ ∃ x, x ∈ l ∧ key x = k.
Proof.
  split.
  - intros H (x & Hx%list_elem_of_In & <-).
    pose proof (find_none _ _ H x Hx) as E. cbn in E.
    by rewrite String.eqb_refl in E.
  - intros H. destruct (List.find _ l) as [x|] eqn:E; [|done].
    apply find_some in E as [Hx%list_elem_of_In E%String.eqb_eq].
    destruct H. by exists x.
Qed.

Lemma ListInstruments_ok (sp : URLSearchParams) :
  HttpResponse.status (ListInstruments sp) = 200%Z.
Proof.
  unfold ListInstruments.
  destruct (get "assetClass" sp) as [a|]; [|reflexivity].
  destruct (negb (JS.truthy a) || _); reflexivity.
Qed.

(** C7: GetBondDetail answers with the bond whose identifier is the one
    asked for when the store has such a bond, and with status 404 exactly
    when no bond has that identifier, as for [does-not-exist]; no other
    operation answers with an error status. *)
Theorem C7_GetBondDetail (id : string) :
  (∀ bond, bond ∈ bonds → Bond.id bond = id →
           GetBondDetail id = HttpResponse.json (Data.mk bond))
  ∧ (GetBondDetail id = HttpResponse.null 404
     ↔ ¬ ∃ bond, bond ∈ bonds ∧ Bond.id bond = id)
  ∧ (HttpResponse.status (GetBondDetail id) = 404%Z
     ↔ ¬ ∃ bond, bond ∈ bonds ∧ Bond.id bond = id)
  ∧ GetBondDetail "does-not-exist" = HttpResponse.null 404
  ∧ (∀ sp, HttpResponse.status (ListStocks sp) = 200%Z)
  ∧ HttpResponse.status ListBondSummaries = 200%Z
  ∧ HttpResponse.status GetServiceBrief = 200%Z
  ∧ (∀ sp, HttpResponse.status (ListInstruments sp) = 200%Z).
Proof.
  split; [|split; [|split]].
  - intros bond Hin <-. unfold GetBondDetail.
    by rewrite (find_unique Bond.id bonds bond bonds_NoDup Hin).
  - rewrite <- (find_none Bond.id bonds id). unfold GetBondDetail.
    by destruct (List.find _ bonds).
  - rewrite <- (find_none Bond.id bonds id). unfold GetBondDetail.
    by destruct (List.find _ bonds).
  - split; [reflexivity|]. split; [reflexivity|]. split; [reflexivity|].
    split; [reflexivity|]. apply ListInstruments_ok.
Qed.

Lemma C7_GetBondDetail_witness :
  bond_003 ∈ bonds
  ∧ GetBondDetail "bond-003" = HttpResponse.json (Data.mk bond_003).
Proof.
  assert (Hin : bond_003 ∈ bonds)
    by (apply (list_elem_of_lookup_2 bonds 2); reflexivity).
  split; [exact Hin|].
  apply (C7_GetBondDetail "bond-003"); [exact Hin | reflexivity].
Defined.

(** C9: ListBondSummaries returns one summary per bond of the store, in
    the order of the store and with the bond's id, name, issuer and rating
    for its four fields, and a total of 5, the number of bonds. *)
Theorem C9_ListBondSummaries :
  ∃ b, ListBondSummaries = HttpResponse.json b
       ∧ length bonds = 5
       ∧ length (Body.data b) = length bonds
       ∧ (∀ (i : nat) bond,
            bonds !! i = Some bond →
            Body.data b !! i
            = Some (BondOption.mk (Bond.id bond) (Bond.name bond)
                      (Bond.issuer bond) (Bond.rating bond)))
       ∧ BondsMeta.total (Body.meta b) = 5.
Proof.
  eexists. split; [reflexivity|]. split; [reflexivity|].
  split; [apply length_fmap|]. split; [|reflexivity].
  intros i bond Hi. cbn [Body.data]. by rewrite list_lookup_fmap, Hi.
Qed.

Lemma C9_ListBondSummaries_witness :
  bonds !! 2 = Some bond_003
  ∧ ∃ b, ListBondSummaries = HttpResponse.json b
         ∧ Body.data b !! 2
           = Some (BondOption.mk "bond-003" "Solara Grid 2040"
                     "Solara Power Holdings" Bond.A).
Proof.
  split; [reflexivity|].
  destruct C9_ListBondSummaries as (b & Hb & _ & _ & H & _).
  exists b. split; [exact Hb|]. apply (H 2 bond_003). reflexivity.
Defined.

Lemma Get_own (key : string) (l : list Instrument.t) :
  instrumentsByAssetClass !! key = Some l →
  JSObject.Get instrumentsByAssetClass key = JSObject.Instruments l.
Proof. intros H. unfold JSObject.Get. by rewrite H. Qed.

(** The recognized keys give their lists. *)
Lemma ListInstruments_recognized (key : string) (l : list Instrument.t)
    (sp : URLSearchParams) :
  get "assetClass" sp = Some key →
  instrumentsByAssetClass !! key = Some l →
  key ≠ "" →
  ListInstruments sp = HttpResponse.json (Data.mk (JSObject.Instruments l)).
Proof.
  intros Hk Hl Hne. unfold ListInstruments.
  rewrite Hk, (Get_own key l Hl). by destruct key.
Qed.

(** Without a key, or with a key that names no property, own or inherited,
    the list is empty. *)
Lemma ListInstruments_empty (sp : URLSearchParams) :
  (∀ key, get "assetClass" sp = Some key →
          instrumentsByAssetClass !! key = None
          ∧ JSObject.Object_prototype !! key = None) →
  ListInstruments sp = HttpResponse.json (Data.mk (JSObject.Instruments [])).
Proof.
  intros H. unfold ListInstruments.
  destruct (get "assetClass" sp) as [key|]; [|done].
  destruct (H key eq_refl) as [H1 H2]. unfold JSObject.Get.
  rewrite H1, H2. cbn. by rewrite orb_true_r.
Qed.

Lemma ListInstruments_equities :
  ListInstruments [("assetClass", "equities")]
  = HttpResponse.json (Data.mk (JSObject.Instruments instruments_equities))
  ∧ length instruments_equities = 5
  ∧ Instrument.mk "inst-eq-003" "Emerging Markets Fund" "EMMK"
    ∈ instruments_equities.
Proof.
  split; [by apply (ListInstruments_recognized "equities")|].
  split; [reflexivity|]. apply (list_elem_of_lookup_2 _ 2). reflexivity.
Qed.

Lemma ListInstruments_not_a_class :
  ListInstruments [("assetClass", "not-a-class")]
  = HttpResponse.json (Data.mk (JSObject.Instruments []))
  ∧ ListInstruments []
    = HttpResponse.json (Data.mk (JSObject.Instruments [])).
Proof.
  split; apply ListInstruments_empty; [|discriminate].
  intros key [= <-]. split; vm_compute; reflexivity.
Qed.

(** C8: asked for the asset class [constructor], ListInstruments does not
    answer with an empty list: it answers with the [constructor] property
    that the object of instrument lists inherits from [Object.prototype],
    the function [Object]. *)
Theorem C8_ListInstruments_inherited_key :
  ListInstruments [("assetClass", "constructor")]
  = HttpResponse.json (Data.mk (JSObject.BuiltinFunction "Object"))
  ∧ ListInstruments [("assetClass", "constructor")]
    ≠ HttpResponse.json (Data.mk (JSObject.Instruments [])).
Proof. split; [vm_compute; reflexivity | vm_compute; discriminate]. Qed.

End Lookups.

(** * Further properties of the handlers and of their callers *)

(** ** More on the order of numbers *)

Section Order.

Lemma lt_le (a b : float) : JS.lt a b = true → JS.le a b = true.
Proof.
  unfold JS.lt, JS.le. rewrite ltb_spec, leb_spec. unfold SFltb, SFleb.
  by destruct (SFcompare (Prim2SF a) (Prim2SF b)) as [[]|].
Qed.

Lemma lt_not_ge (a b : float) : JS.lt a b = true → JS.ge a b = false.
Proof.
  unfold JS.lt, JS.ge. rewrite ltb_spec, leb_spec. unfold SFltb, SFleb.
  rewrite (SFcompare_swap (Prim2SF a) (Prim2SF b)).
  by destruct (SFcompare (Prim2SF a) (Prim2SF b)) as [[]|].
Qed.

(** [SFcompare] orders the representations by sign, then exponent, then
    mantissa; [<=] on them is transitive. *)
Lemma SFleb_trans (x y z : spec_float) :
  SFleb x y = true → SFleb y z = true → SFleb x z = true.
Proof.
  unfold SFleb.
  destruct x as [[]|[]| |[] mx ex], y as [[]|[]| |[] my ey],
    z as [[]|[]| |[] mz ez]; cbn [SFcompare]; try done.
  all: change (PosDef.Pos.compare_cont Eq ?p ?q) with (Pos.compare p q).
  all: destruct (Z.compare_spec ex ey), (Z.compare_spec ey ez),
         (Z.compare_spec ex ez); try done; try lia.
  all: destruct (Pos.compare_spec mx my), (Pos.compare_spec my mz),
         (Pos.compare_spec mx mz); cbn; try done; try lia.
Qed.

Lemma eq_ge (a b : float) : PrimFloat.eqb a b = true → JS.ge a b = true.
Proof.
  rewrite FloatAxioms.eqb_spec. unfold SFeqb, JS.ge. rewrite leb_spec.
  unfold SFleb. rewrite (SFcompare_swap (Prim2SF a) (Prim2SF b)).
  by destruct (SFcompare (Prim2SF a) (Prim2SF b)) as [[]|].
Qed.

Lemma le_trans (a b c : float) :
  JS.le a b = true → JS.le b c = true → JS.le a c = true.
Proof. unfold JS.le. rewrite !leb_spec. apply SFleb_trans. Qed.

End Order.

(** ** More on GET /api/stocks *)

Section Requests.

Implicit Types (sp : URLSearchParams) (stock : Stock.t) (b : Bound)
  (t : Filter).

Lemma records_filter sp :
  records sp = List.filter (stock_filter (filters_of sp)) stocks.
Proof.
  unfold records, ListStocks.
  cbn [HttpResponse.body HttpResponse.json Body.data]. reflexivity.
Qed.

Lemma filter_sublist_impl {A} (f g : A → bool) (l : list A) :
  (∀ x, f x = true → g x = true) →
  sublist (List.filter f l) (List.filter g l).
Proof.
  intros H. induction l as [|x l IH]; cbn [List.filter]; [constructor|].
  destruct (f x) eqn:E.
  - rewrite (H x E). by constructor.
  - destruct (g x); [by constructor | done].
Qed.

Lemma filter_all {A} (f : A → bool) (l : list A) :
  (∀ x, x ∈ l → f x = true) → List.filter f l = l.
Proof.
  induction l as [|x l IH]; intros H; cbn [List.filter]; [done|].
  rewrite (H x) by apply list_elem_of_here. f_equal. apply IH.
  intros y Hy. apply H. by apply list_elem_of_further.
Qed.

Lemma filter_none {A} (f : A → bool) (l : list A) :
  (∀ x, x ∈ l → f x = false) → List.filter f l = [].
Proof.
  induction l as [|x l IH]; intros H; cbn [List.filter]; [done|].
  rewrite (H x) by apply list_elem_of_here. apply IH.
  intros y Hy. apply H. by apply list_elem_of_further.
Qed.

(** The constants of the handler depend on the eight parameters only. *)
Lemma filters_of_ext sp sp' :
  (∀ t, get (filter_param t) sp = get (filter_param t) sp') →
  filters_of sp = filters_of sp'.
Proof.
  intros H. unfold filters_of.
  generalize (H Search) (H Sector) (H Rating) (H Change)
    (H (Bounded MinPrice)) (H (Bounded MaxPrice)) (H (Bounded MinCap))
    (H (Bounded MaxCap)).
  cbn [filter_param bound_param]. by intros -> -> -> -> -> -> -> ->.
Qed.

Lemma ListStocks_ext sp sp' :
  (∀ t, get (filter_param t) sp = get (filter_param t) sp') →
  ListStocks sp = ListStocks sp'.
Proof.
  intros H. apply records_ext. intros stock. by rewrite (filters_of_ext sp sp').
Qed.

Lemma filter_param_dec (name : string) :
  (∃ t, filter_param t = name) ∨ (∀ t, filter_param t ≠ name).
Proof.
  destruct (decide (name = "search")) as [->|?]; [left; by exists Search|].
  destruct (decide (name = "sector")) as [->|?]; [left; by exists Sector|].
  destruct (decide (name = "rating")) as [->|?]; [left; by exists Rating|].
  destruct (decide (name = "change")) as [->|?]; [left; by exists Change|].
  destruct (decide (name = "minPrice")) as [->|?];
    [left; by exists (Bounded MinPrice)|].
  destruct (decide (name = "maxPrice")) as [->|?];
    [left; by exists (Bounded MaxPrice)|].
  destruct (decide (name = "minCap")) as [->|?];
    [left; by exists (Bounded MinCap)|].
  destruct (decide (name = "maxCap")) as [->|?];
    [left; by exists (Bounded MaxCap)|].
  right. intros [| | | |[]]; cbn; congruence.
Qed.

(** X1: a parameter can only narrow the result.  Whatever the request and
    whatever the name, the records returned are a sublist of the records
    returned for the request without the parameters of that name. *)
Theorem ListStocks_narrowing (name : string) sp :
  sublist (records sp) (records (delete_param name sp)).
Proof.
  rewrite !records_filter. destruct (filter_param_dec name) as [[t <-]|Hne].
  - apply filter_sublist_impl. intros stock.
    rewrite (stock_filter_drop t sp stock), andb_true_iff. tauto.
  - rewrite (filters_of_ext (delete_param name sp) sp); [done|].
    intros t. apply get_delete_ne. apply Hne.
Qed.

(** X2: a request that carries none of the eight filter parameters,
    whatever else it carries, is answered with the whole store in store
    order, a total of 30 and the sectors. *)
Theorem ListStocks_unfiltered sp :
  (∀ t, get (filter_param t) sp = None) →
  ListStocks sp = HttpResponse.json (Body.mk stocks (StocksMeta.mk 30 sectors)).
Proof.
  intros H. rewrite (ListStocks_ext sp []) by (intros t; by rewrite H).
  vm_compute. reflexivity.
Qed.

Lemma ListStocks_unfiltered_witness :
  ListStocks [("page", "2"); ("sort", "price")]
  = HttpResponse.json (Body.mk stocks (StocksMeta.mk 30 sectors)).
Proof.
  apply ListStocks_unfiltered. intros [| | | |[]]; reflexivity.
Defined.

(** X3: a change direction other than [positive] and [negative] filters
    nothing: the response is the response to the request without it. *)
Theorem ListStocks_unknown_change sp (c : string) :
  get "change" sp = Some c → c ≠ "positive" → c ≠ "negative" →
  ListStocks sp = ListStocks (delete_param "change" sp).
Proof.
  intros Hc Hp Hn. apply records_ext. intros stock.
  rewrite (stock_filter_drop Change sp stock).
  cbn [filter_ok filter_param filters_of change]. rewrite Hc.
  cbn [default from_option id]. unfold change_ok.
  destruct (String.eqb_spec c "positive"); [done|].
  destruct (String.eqb_spec c "negative"); [done|]. reflexivity.
Qed.

Lemma ListStocks_unknown_change_witness :
  ListStocks [("change", "Positive")]
  = ListStocks (delete_param "change" [("change", "Positive")]).
Proof.
  apply (ListStocks_unknown_change [("change", "Positive")] "Positive");
    [reflexivity | discriminate | discriminate].
Defined.

Lemma records_nil sp :
  (∀ stock, stock ∈ stocks → stock_filter (filters_of sp) stock = false) →
  ListStocks sp = HttpResponse.json (Body.mk [] (StocksMeta.mk 0 sectors)).
Proof.
  intros H. rewrite ListStocks_eq, records_filter, (filter_none _ _ H).
  reflexivity.
Qed.

(** X4: a sector that no record of the store has, the empty string and a
    sector in another letter case among them, is answered with an empty
    list and a total of 0, not with an error; only [All] and an absent
    parameter switch the filter off. *)
Theorem ListStocks_unknown_sector sp (s : string) :
  get "sector" sp = Some s → s ≠ "All" → s ∉ sectors →
  ListStocks sp = HttpResponse.json (Body.mk [] (StocksMeta.mk 0 sectors)).
Proof.
  intros Hs Hall Hnot. apply records_nil. intros stock Hin.
  rewrite (stock_filter_drop Sector sp stock).
  cbn [filter_ok filter_param filters_of sector]. rewrite Hs.
  cbn [default from_option id]. unfold sector_ok.
  destruct (String.eqb_spec s "All"); [done|].
  destruct (String.eqb_spec (Stock.sector stock) s) as [E|E]; [|done].
  destruct Hnot. apply elem_of_sectors. by exists stock.
Qed.

Lemma ListStocks_unknown_sector_witness :
  ListStocks [("sector", "energy")]
  = HttpResponse.json (Body.mk [] (StocksMeta.mk 0 sectors)).
Proof.
  apply (ListStocks_unknown_sector [("sector", "energy")] "energy");
    [reflexivity | discriminate |].
  rewrite sectors_eq. intros H. repeat (apply elem_of_cons in H as [H|H]; [discriminate|]).
  by apply elem_of_nil in H.
Defined.

(** X5: a rating other than [All], [Buy], [Hold] and [Sell] is answered
    with an empty list and a total of 0. *)
Theorem ListStocks_unknown_rating sp (r : string) :
  get "rating" sp = Some r →
  r ≠ "All" → r ≠ "Buy" → r ≠ "Hold" → r ≠ "Sell" →
  ListStocks sp = HttpResponse.json (Body.mk [] (StocksMeta.mk 0 sectors)).
Proof.
  intros Hr Hall Hb Hh Hs. apply records_nil. intros stock _.
  rewrite (stock_filter_drop Rating sp stock).
  cbn [filter_ok filter_param filters_of rating]. rewrite Hr.
  cbn [default from_option id]. unfold rating_ok.
  destruct (String.eqb_spec r "All"); [done|].
  destruct (String.eqb_spec (Stock.rating_str (Stock.rating stock)) r) as [E|E];
    [|done].
  by destruct (Stock.rating stock); cbn in E; subst r.
Qed.

Lemma ListStocks_unknown_rating_witness :
  ListStocks [("rating", "buy")]
  = HttpResponse.json (Body.mk [] (StocksMeta.mk 0 sectors)).
Proof.
  apply (ListStocks_unknown_rating [("rating", "buy")] "buy");
    [reflexivity | discriminate..].
Defined.

(** X6: a minimum above the maximum leaves nothing.  When the minimum and
    the maximum supplied for the price (or for the market cap) are numbers
    and the minimum is the greater one, the list is empty. *)
Theorem ListStocks_crossed_bounds sp (lo hi : Bound) (a z : string) :
  (lo = MinPrice ∧ hi = MaxPrice) ∨ (lo = MinCap ∧ hi = MaxCap) →
  get (bound_param lo) sp = Some a → get (bound_param hi) sp = Some z →
  numeric a → numeric z →
  JS.gt (JS.Number a) (JS.Number z) = true →
  ListStocks sp = HttpResponse.json (Body.mk [] (StocksMeta.mk 0 sectors)).
Proof.
  intros Hb Ha Hz Hna Hnz Hgt. apply records_nil. intros stock Hin.
  destruct (stock_filter (filters_of sp) stock) eqn:E; [|done].
  apply stock_filter_accepts in E as [_ _ _ _ _ Hbound];
    [|by apply stocks_decimal].
  pose proof (Hbound lo a Ha Hna) as Hlo.
  pose proof (Hbound hi z Hz Hnz) as Hhi.
  assert (JS.le (JS.Number a) (JS.Number z) = true) as Hle.
  { destruct Hb as [[-> ->]|[-> ->]]; cbn [within bound_field] in Hlo, Hhi;
      eapply le_trans; eassumption. }
  apply lt_not_ge in Hgt. unfold JS.ge in Hgt. unfold JS.le in Hle. congruence.
Qed.

Lemma ListStocks_crossed_bounds_witness :
  ListStocks [("minPrice", "100"); ("maxPrice", "50")]
  = HttpResponse.json (Body.mk [] (StocksMeta.mk 0 sectors)).
Proof.
  apply (ListStocks_crossed_bounds [("minPrice", "100"); ("maxPrice", "50")]
           MinPrice MaxPrice "100" "50").
  - left. split; reflexivity.
  - reflexivity.
  - reflexivity.
  - split; [vm_compute; discriminate | vm_compute; reflexivity].
  - split; [vm_compute; discriminate | vm_compute; reflexivity].
  - vm_compute. reflexivity.
Defined.

Lemma get_app (k : string) sp sp' :
  get k (sp ++ sp')%list = match get k sp with
                      | Some v => Some v
                      | None => get k sp'
                      end.
Proof.
  unfold get. induction sp as [|[k' v] sp IH]; [reflexivity|].
  cbn [app List.find fst]. destruct (String.eqb k' k); [reflexivity | exact IH].
Qed.

(** X7: of the pairs of one name only the first counts: pairs added
    behind a request for names the request already carries do not change
    the response. *)
Theorem ListStocks_first_pair sp sp' :
  (∀ name v, (name, v) ∈ sp' → is_Some (get name sp)) →
  ListStocks (sp ++ sp')%list = ListStocks sp.
Proof.
  intros H. apply ListStocks_ext. intros t. rewrite get_app.
  destruct (get (filter_param t) sp) as [v|] eqn:E; [done|].
  unfold get. destruct (List.find _ sp') as [[k v]|] eqn:E'; [|done].
  apply find_some in E' as [Hin Hk]. cbn in Hk. apply String.eqb_eq in Hk as ->.
  apply list_elem_of_In in Hin. destruct (H _ _ Hin) as [w Hw]. congruence.
Qed.

Lemma ListStocks_first_pair_witness :
  ListStocks ([("sector", "Energy")] ++ [("sector", "Technology")])%list
  = ListStocks [("sector", "Energy")].
Proof.
  apply ListStocks_first_pair. intros name v [= -> ->]%list_elem_of_singleton.
  by exists "Energy".
Defined.

Lemma append_assoc (a b c : string) : (a +:+ b) +:+ c = a +:+ b +:+ c.
Proof.
  induction a as [|x a IH]; [done|]. by rewrite !append_cons, IH.
Qed.

Lemma append_empty_r (a : string) : a +:+ "" = a.
Proof.
  induction a as [|x a IH]; [done|]. by rewrite append_cons, IH.
Qed.

(** X8: every record of the store is found by its ticker and by its
    company name, in any letter case, when nothing else is asked. *)
Theorem ListStocks_finds_by_name stock (s : string) :
  stock ∈ stocks →
  JS.toLowerCase s = JS.toLowerCase (Stock.ticker stock)
  ∨ JS.toLowerCase s = JS.toLowerCase (Stock.company stock) →
  stock ∈ records [("search", s)].
Proof.
  intros Hin Hs. apply elem_of_records. split; [done|].
  rewrite (stock_filter_drop Search _ stock). apply andb_true_iff. split.
  - apply search_ok_iff. intros s' [= <-] _. unfold haystack.
    destruct Hs as [Hs|Hs].
    + by exists "", (Stock.ticker stock), (" " +:+ Stock.company stock).
    + exists (Stock.ticker stock +:+ " "), (Stock.company stock), "".
      split; [|done]. by rewrite append_assoc, append_empty_r.
  - cbn [filter_param]. by rewrite stock_filter_conj.
Qed.

Lemma ListStocks_finds_by_name_witness :
  ZEND ∈ records [("search", "zendara SOFTWARE")].
Proof.
  apply ListStocks_finds_by_name.
  - apply (list_elem_of_lookup_2 stocks 25). reflexivity.
  - right. reflexivity.
Defined.

End Requests.

(** ** The stocks page *)

Section StocksPageFacts.

Implicit Types (sp : URLSearchParams) (f : StocksPage.Filters)
  (k : StocksPage.Key).

Lemma get_set_eq (name v : string) sp : get name (params_set name v sp) = Some v.
Proof.
  unfold get. induction sp as [|[k' v'] sp IH]; cbn [params_set].
  - cbn [List.find fst]. by rewrite String.eqb_refl.
  - destruct (String.eqb k' name) eqn:E; cbn [List.find fst].
    + by rewrite String.eqb_refl.
    + by rewrite E.
Qed.

Lemma get_set_ne (name v k : string) sp :
  k ≠ name → get k (params_set name v sp) = get k sp.
Proof.
  intros Hne. unfold get. induction sp as [|[k' v'] sp IH]; cbn [params_set].
  - cbn [List.find fst].
    destruct (String.eqb_spec name k); [congruence | done].
  - destruct (String.eqb_spec k' name) as [->|E]; cbn [List.find fst].
    + destruct (String.eqb_spec name k); [congruence|].
      apply (get_delete_ne name k sp Hne).
    + destruct (String.eqb k' k); [done | exact IH].
Qed.

Lemma get_set_when (c : bool) (name v k : string) sp :
  get k (if c then params_set name v sp else sp)
  = if c && String.eqb k name then Some v else get k sp.
Proof.
  destruct c; [|done]. cbn [andb].
  destruct (String.eqb_spec k name) as [->|E];
    [apply get_set_eq | by apply get_set_ne].
Qed.

Lemma truthy_decide (s : string) :
  JS.truthy s = bool_decide (s ≠ "").
Proof. by destruct s. Qed.

Lemma not_eqb_decide (s d : string) :
  negb (String.eqb s d) = bool_decide (s ≠ d).
Proof.
  destruct (String.eqb_spec s d) as [->|E]; cbn.
  - by rewrite bool_decide_false by auto.
  - by rewrite bool_decide_true.
Qed.

Lemma fetchStocks_params_get f (name : string) :
  get name (StocksPage.fetchStocks_params f)
  = if bool_decide (StocksPage.maxCap f ≠ "")
            && String.eqb name "maxCap"
    then Some (StocksPage.maxCap f)
    else if bool_decide (StocksPage.minCap f ≠ "")
            && String.eqb name "minCap"
    then Some (StocksPage.minCap f)
    else if bool_decide (StocksPage.maxPrice f ≠ "")
            && String.eqb name "maxPrice"
    then Some (StocksPage.maxPrice f)
    else if bool_decide (StocksPage.minPrice f ≠ "")
            && String.eqb name "minPrice"
    then Some (StocksPage.minPrice f)
    else if bool_decide (StocksPage.change f ≠ "any")
            && String.eqb name "change"
    then Some (StocksPage.change f)
    else if bool_decide (StocksPage.rating f ≠ "All")
            && String.eqb name "rating"
    then Some (StocksPage.rating f)
    else if bool_decide (StocksPage.sector f ≠ "All")
            && String.eqb name "sector"
    then Some (StocksPage.sector f)
    else if bool_decide (StocksPage.search f ≠ "")
            && String.eqb name "search"
    then Some (StocksPage.search f)
    else None.
Proof.
  unfold StocksPage.fetchStocks_params. cbv zeta.
  by rewrite !get_set_when, !truthy_decide, !not_eqb_decide.
Qed.

Lemma delete_param_names (name : string) sp :
  sublist (fst <$> delete_param name sp) (fst <$> sp)
  ∧ name ∉ fst <$> delete_param name sp.
Proof.
  unfold delete_param. induction sp as [|[k v] sp [IH1 IH2]];
    cbn [List.filter fst]; [split; [done | apply not_elem_of_nil]|].
  destruct (String.eqb_spec k name) as [->|E]; cbn [negb].
  - split; [|done]. rewrite fmap_cons. by constructor.
  - rewrite !fmap_cons. split; [by constructor|].
    apply not_elem_of_cons. split; [cbn; by intros <- | done].
Qed.

Lemma params_set_names (name v x : string) sp :
  x ∈ fst <$> params_set name v sp → x = name ∨ x ∈ fst <$> sp.
Proof.
  induction sp as [|[k w] sp IH]; cbn [params_set].
  - rewrite fmap_cons. intros [->|H]%elem_of_cons; [by left | by right].
  - destruct (String.eqb_spec k name) as [->|E]; rewrite !fmap_cons.
    + intros [->|H]%elem_of_cons; [by left|]. right. apply list_elem_of_further.
      eapply elem_of_sublist; [done | apply (delete_param_names name sp)].
    + intros [->|H]%elem_of_cons; [right; apply list_elem_of_here|].
      destruct (IH H) as [->|?]; [by left|]. right. by apply list_elem_of_further.
Qed.

Lemma params_set_NoDup (name v : string) sp :
  NoDup (fst <$> sp) → NoDup (fst <$> params_set name v sp).
Proof.
  induction sp as [|[k w] sp IH]; cbn [params_set].
  - intros _. apply NoDup_singleton.
  - rewrite fmap_cons. cbn [fst]. intros [Hk Hsp]%NoDup_cons.
    destruct (String.eqb_spec k name) as [->|E]; rewrite fmap_cons; cbn [fst];
      apply NoDup_cons.
    + destruct (delete_param_names name sp) as [Hsub Hnot].
      split; [done|]. by eapply sublist_NoDup.
    + split; [|by apply IH].
      intros [->|H]%params_set_names; [done | by destruct Hk].
Qed.

Lemma set_when_NoDup (c : bool) (name v : string) sp :
  NoDup (fst <$> sp) →
  NoDup (fst <$> (if c then params_set name v sp else sp)).
Proof. destruct c; [apply params_set_NoDup | done]. Qed.

Lemma fetchStocks_params_key f k :
  get (StocksPage.key_name k) (StocksPage.fetchStocks_params f)
  = if bool_decide (StocksPage.field k f = neutral k) then None
    else Some (StocksPage.field k f).
Proof.
  rewrite fetchStocks_params_get.
  destruct k;
    cbn [StocksPage.key_name StocksPage.field neutral String.eqb Ascii.eqb
         Bool.eqb];
    rewrite ?andb_false_r, ?andb_true_r;
    case_bool_decide; case_bool_decide; done.
Qed.

(** X9: the request of [fetchStocks] carries a parameter for each field
    of the filter panel that does not hold its neutral value (the empty
    string, [All] for sector and rating, [any] for the change), with the
    field as its value; it carries no other parameter and none twice. *)
Theorem fetchStocks_request f :
  (∀ k, get (StocksPage.key_name k) (StocksPage.fetchStocks_params f)
        = if bool_decide (StocksPage.field k f = neutral k) then None
          else Some (StocksPage.field k f))
  ∧ (∀ name, is_Some (get name (StocksPage.fetchStocks_params f)) →
             ∃ k, name = StocksPage.key_name k)
  ∧ NoDup (fst <$> StocksPage.fetchStocks_params f).
Proof.
  split; [apply fetchStocks_params_key|split].
  - intros name. rewrite fetchStocks_params_get.
    destruct (String.eqb_spec name "maxCap") as [->|?];
      [by exists StocksPage.KMaxCap|].
    destruct (String.eqb_spec name "minCap") as [->|?];
      [by exists StocksPage.KMinCap|].
    destruct (String.eqb_spec name "maxPrice") as [->|?];
      [by exists StocksPage.KMaxPrice|].
    destruct (String.eqb_spec name "minPrice") as [->|?];
      [by exists StocksPage.KMinPrice|].
    destruct (String.eqb_spec name "change") as [->|?];
      [by exists StocksPage.KChange|].
    destruct (String.eqb_spec name "rating") as [->|?];
      [by exists StocksPage.KRating|].
    destruct (String.eqb_spec name "sector") as [->|?];
      [by exists StocksPage.KSector|].
    destruct (String.eqb_spec name "search") as [->|?];
      [by exists StocksPage.KSearch|].
    rewrite !andb_false_r. by intros [? [=]].
  - unfold StocksPage.fetchStocks_params. cbv zeta.
    do 8 apply set_when_NoDup. constructor.
Qed.

Lemma fetchStocks_request_witness :
  ∃ k, "rating" = StocksPage.key_name k.
Proof.
  destruct (fetchStocks_request
              (StocksPage.mkFilters "" "All" "Sell" "any" "" "" "" ""))
    as (_ & H & _).
  apply H. by exists "Sell".
Defined.

(** The constants the handler reads from a request of [fetchStocks]. *)
Lemma filters_of_fetchStocks f :
  filters_of (StocksPage.fetchStocks_params f)
  = mkFilters
      (JS.toLowerCase (StocksPage.search f))
      (StocksPage.sector f) (StocksPage.rating f) (StocksPage.change f)
      (parseNumber (Some (StocksPage.minPrice f)))
      (parseNumber (Some (StocksPage.maxPrice f)))
      (parseNumber (Some (StocksPage.minCap f)))
      (parseNumber (Some (StocksPage.maxCap f))).
Proof.
  pose proof (fetchStocks_params_key f) as H. unfold filters_of.
  generalize (H StocksPage.KSearch) (H StocksPage.KSector)
    (H StocksPage.KRating) (H StocksPage.KChange) (H StocksPage.KMinPrice)
    (H StocksPage.KMaxPrice) (H StocksPage.KMinCap) (H StocksPage.KMaxCap).
  cbn [StocksPage.key_name StocksPage.field neutral].
  intros -> -> -> -> -> -> -> ->.
  repeat case_bool_decide;
    repeat match goal with E : _ = _ |- _ => rewrite E end; reflexivity.
Qed.

Lemma fetchStocks_returns f :
  let filtered :=
    List.filter
      (stock_filter
         (mkFilters
            (JS.toLowerCase (StocksPage.search f))
            (StocksPage.sector f) (StocksPage.rating f)
            (StocksPage.change f)
            (parseNumber (Some (StocksPage.minPrice f)))
            (parseNumber (Some (StocksPage.maxPrice f)))
            (parseNumber (Some (StocksPage.minCap f)))
            (parseNumber (Some (StocksPage.maxCap f)))))
      stocks in
  StocksPage.fetchStocks f
  = Returned (Body.mk filtered (StocksMeta.mk (length filtered) sectors)).
Proof.
  cbv zeta. unfold StocksPage.fetchStocks.
  rewrite ListStocks_eq, records_filter, filters_of_fetchStocks. reflexivity.
Qed.

(** X10: the handler sees the filter panel as it is.  The neutral values
    that [fetchStocks] leaves out are the defaults the handler puts back:
    for every state of the panel the handler filters with the lower-cased
    search string, the sector, rating and change of the panel and the
    bounds read from its four bound fields, so a record is returned iff the
    callback accepts it under those. *)
Theorem fetchStocks_roundtrip f :
  ∃ b, StocksPage.fetchStocks f = Returned b
       ∧ Body.data b
         = List.filter
             (stock_filter
                (mkFilters
                   (JS.toLowerCase (StocksPage.search f))
                   (StocksPage.sector f) (StocksPage.rating f)
                   (StocksPage.change f)
                   (parseNumber (Some (StocksPage.minPrice f)))
                   (parseNumber (Some (StocksPage.maxPrice f)))
                   (parseNumber (Some (StocksPage.minCap f)))
                   (parseNumber (Some (StocksPage.maxCap f)))))
             stocks
       ∧ StocksMeta.total (Body.meta b) = length (Body.data b)
       ∧ StocksMeta.sectors (Body.meta b) = sectors.
Proof.
  rewrite fetchStocks_returns. eexists. split; [reflexivity|].
  cbn [Body.data Body.meta StocksMeta.total StocksMeta.sectors].
  split; [reflexivity|]. split; reflexivity.
Qed.

Lemma fetchStocks_roundtrip_witness :
  ∃ b, StocksPage.fetchStocks
         (StocksPage.mkFilters "ZeNd" "All" "Buy" "any" "" "200" "" "")
       = Returned b
       ∧ Stock.ticker <$> Body.data b = ["ZEND"].
Proof.
  destruct (fetchStocks_roundtrip
              (StocksPage.mkFilters "ZeNd" "All" "Buy" "any" "" "200" "" ""))
    as (b & Hb & Hdata & _).
  exists b. split; [exact Hb|]. rewrite Hdata. vm_compute. reflexivity.
Defined.

Lemma field_updateFilter k (v : string) f :
  StocksPage.field k (StocksPage.updateFilter k v f) = v.
Proof. by destruct k. Qed.

Lemma field_updateFilter_ne k k' (v : string) f :
  k' ≠ k →
  StocksPage.field k' (StocksPage.updateFilter k v f) = StocksPage.field k' f.
Proof. by destruct k, k'. Qed.

(** X11: changing one field of the panel changes that parameter of the
    request and no other: the parameter takes the new value, or goes when
    the value is the neutral one of the field, and the parameters of the
    other fields stay as they were. *)
Theorem updateFilter_request k (v : string) f :
  get (StocksPage.key_name k)
    (StocksPage.fetchStocks_params (StocksPage.updateFilter k v f))
  = (if bool_decide (v = neutral k) then None else Some v)
  ∧ (∀ k', k' ≠ k →
       get (StocksPage.key_name k')
         (StocksPage.fetchStocks_params (StocksPage.updateFilter k v f))
       = get (StocksPage.key_name k') (StocksPage.fetchStocks_params f)).
Proof.
  split.
  - by rewrite fetchStocks_params_key, field_updateFilter.
  - intros k' Hne. by rewrite !fetchStocks_params_key, field_updateFilter_ne.
Qed.

Lemma updateFilter_request_witness :
  get "sector"
    (StocksPage.fetchStocks_params
       (StocksPage.updateFilter StocksPage.KRating "Buy"
          (StocksPage.mkFilters "" "Energy" "All" "any" "" "" "" "")))
  = get "sector"
      (StocksPage.fetchStocks_params
         (StocksPage.mkFilters "" "Energy" "All" "any" "" "" "" "")).
Proof.
  destruct (updateFilter_request StocksPage.KRating "Buy"
              (StocksPage.mkFilters "" "Energy" "All" "any" "" "" "" ""))
    as [_ H].
  apply (H StocksPage.KSector). discriminate.
Defined.

(** X12: after [resetFilters], whatever the panel held, the request has no
    parameter and [fetchStocks] returns the whole store in store order
    with a total of 30; the first request of the page is the same. *)
Theorem resetFilters_whole_store f :
  StocksPage.fetchStocks_params (StocksPage.resetFilters f) = []
  ∧ StocksPage.fetchStocks (StocksPage.resetFilters f)
    = Returned (Body.mk stocks (StocksMeta.mk 30 sectors))
  ∧ StocksPage.fetchStocks StocksPage.defaultFilters
    = Returned (Body.mk stocks (StocksMeta.mk 30 sectors)).
Proof.
  unfold StocksPage.resetFilters. split; [reflexivity|].
  split; vm_compute; reflexivity.
Qed.

(** X13: every sector that the metadata offers selects its records.
    Choosing a sector of [sectors] in the reset panel returns exactly the
    records of the store with that sector, and at least one. *)
Theorem sector_option_selects (s : string) :
  s ∈ sectors →
  ∃ b, StocksPage.fetchStocks
         (StocksPage.updateFilter StocksPage.KSector s
            StocksPage.defaultFilters)
       = Returned b
       ∧ Body.data b ≠ []
       ∧ (∀ stock, stock ∈ Body.data b
                   ↔ stock ∈ stocks ∧ Stock.sector stock = s).
Proof.
  intros Hs.
  rewrite (fetchStocks_returns
             (StocksPage.updateFilter StocksPage.KSector s
                StocksPage.defaultFilters)).
  cbv zeta.
  cbn [StocksPage.updateFilter StocksPage.defaultFilters StocksPage.search
       StocksPage.sector StocksPage.rating StocksPage.change
       StocksPage.minPrice StocksPage.maxPrice StocksPage.minCap
       StocksPage.maxCap].
  change (JS.toLowerCase "") with "".
  change (parseNumber (Some "")) with (@None float).
  set (f := mkFilters "" s "All" "any" None None None None).
  exists (Body.mk (List.filter (stock_filter f) stocks)
            (StocksMeta.mk (length (List.filter (stock_filter f) stocks))
               sectors)).
  split; [reflexivity|]. cbn [Body.data].
  assert (Hall : s ≠ "All").
  { intros ->. revert Hs. rewrite sectors_eq.
    intros H. repeat (apply elem_of_cons in H as [H|H]; [discriminate|]).
    by apply elem_of_nil in H. }
  assert (Hmem : ∀ stock, stock ∈ List.filter (stock_filter f) stocks
                          ↔ stock ∈ stocks ∧ Stock.sector stock = s).
  { intros stock. rewrite list_elem_of_In, filter_In, <- list_elem_of_In.
    rewrite stock_filter_conj. unfold f.
    cbn [search sector rating change minPrice maxPrice minCap maxCap].
    rewrite search_ok_default, rating_ok_default, change_ok_default,
      !min_ok_default, !max_ok_default, !andb_true_r, andb_true_l.
    unfold sector_ok.
    destruct (String.eqb_spec s "All"); [done|]. cbn [negb andb].
    rewrite negb_involutive.
    by destruct (String.eqb_spec (Stock.sector stock) s); split; intros []. }
  split; [|exact Hmem].
  apply elem_of_sectors in Hs as (stock & Hin & Hsec).
  intros Hnil.
  assert (stock ∈ List.filter (stock_filter f) stocks) as H by (by apply Hmem).
  rewrite Hnil in H. by apply elem_of_nil in H.
Qed.

Lemma sector_option_selects_witness :
  ∃ b, StocksPage.fetchStocks
         (StocksPage.updateFilter StocksPage.KSector "Utilities"
            StocksPage.defaultFilters)
       = Returned b
       ∧ Body.data b ≠ []
       ∧ (∀ stock, stock ∈ Body.data b
                   ↔ stock ∈ stocks ∧ Stock.sector stock = "Utilities").
Proof.
  apply sector_option_selects. rewrite sectors_eq.
  do 5 apply list_elem_of_further. apply list_elem_of_here.
Defined.

(** X14: the class of the change cell agrees with the change filter.
    Every record returned under [change=positive] is drawn [trend up] and
    every record returned under [change=negative] is drawn [trend down];
    a change of exactly 0, which neither filter returns, is drawn
    [trend up]. *)
Theorem trend_agrees_with_change sp stock :
  stock ∈ records sp →
  (get "change" sp = Some "positive" →
   StocksPage.trend (Stock.changePercent stock) = "trend up")
  ∧ (get "change" sp = Some "negative" →
     StocksPage.trend (Stock.changePercent stock) = "trend down")
  ∧ (∀ v : float, PrimFloat.eqb v 0 = true → StocksPage.trend v = "trend up").
Proof.
  intros [Hin Hf]%elem_of_records.
  apply stock_filter_accepts in Hf as [_ _ _ Hpos Hneg _];
    [|by apply stocks_decimal].
  unfold StocksPage.trend. split; [|split].
  - intros Hc. specialize (Hpos Hc). apply lt_le in Hpos.
    change (JS.le 0 (Stock.changePercent stock))
      with (JS.ge (Stock.changePercent stock) 0) in Hpos.
    by rewrite Hpos.
  - intros Hc. specialize (Hneg Hc). apply lt_not_ge in Hneg. by rewrite Hneg.
  - intros v Hv. by rewrite (eq_ge v 0 Hv).
Qed.

Lemma trend_agrees_with_change_witness :
  ALNA ∈ records [("change", "positive")]
  ∧ StocksPage.trend (Stock.changePercent ALNA) = "trend up".
Proof.
  assert (Hin : ALNA ∈ records [("change", "positive")]).
  { apply (list_elem_of_lookup_2 _ 0). vm_compute. reflexivity. }
  split; [exact Hin|].
  destruct (trend_agrees_with_change [("change", "positive")] ALNA Hin)
    as [H _].
  apply H. reflexivity.
Defined.

End StocksPageFacts.

(** ** White space around a bound *)

Section Trim.

Lemma trimStart_head (s : string) :
  match JS.trimStart s with
  | String c _ => JS.is_space c = false
  | EmptyString => True
  end.
Proof.
  induction s as [|c s IH]; cbn [JS.trimStart]; [done|].
  by destruct (JS.is_space c) eqn:E.
Qed.

Lemma trimEnd_head (c : ascii) (s : string) :
  JS.is_space c = false → ∃ t, JS.trimEnd (String c s) = String c t.
Proof.
  intros E. cbn [JS.trimEnd]. destruct (JS.trimEnd s) as [|d t].
  - rewrite E. by exists "".
  - by exists (String d t).
Qed.

Lemma trimEnd_idem (s : string) : JS.trimEnd (JS.trimEnd s) = JS.trimEnd s.
Proof.
  induction s as [|c s IH]; [done|]. cbn [JS.trimEnd].
  destruct (JS.trimEnd s) as [|d t] eqn:E.
  - destruct (JS.is_space c) eqn:Ec; [done|]. cbn [JS.trimEnd]. by rewrite Ec.
  - cbn [JS.trimEnd]. cbn [JS.trimEnd] in IH. by rewrite IH.
Qed.

(** [trim] is idempotent. *)
Lemma trim_idem (s : string) : JS.trim (JS.trim s) = JS.trim s.
Proof.
  unfold JS.trim. pose proof (trimStart_head s) as H.
  destruct (JS.trimStart s) as [|c u]; [done|].
  destruct (trimEnd_head c u H) as [t Ht]. rewrite Ht.
  cbn [JS.trimStart]. rewrite H, <- Ht. apply trimEnd_idem.
Qed.

(** X15: white space around a bound does not count, and a bound of white
    space only is no bound: [parseNumber] reads a string as it reads the
    trimmed string, and gives [undefined] for a blank string, which
    [Number] alone would read as 0. *)
Theorem parseNumber_trim (s : string) :
  parseNumber (Some (JS.trim s)) = parseNumber (Some s)
  ∧ (JS.trim s = "" →
     parseNumber (Some s) = None ∧ JS.Number s = 0%float).
Proof.
  split.
  - unfold parseNumber, JS.Number. by rewrite !trim_idem.
  - intros H. unfold parseNumber, JS.Number. by rewrite H.
Qed.

Lemma parseNumber_trim_witness :
  parseNumber (Some "   ") = None ∧ JS.Number "   " = 0%float.
Proof. apply (parseNumber_trim "   "). reflexivity. Defined.

End Trim.

(** ** The bond page *)

Section AboutPageFacts.

Lemma bonds_spliceable (bond : Bond.t) :
  bond ∈ bonds → spliceable (Bond.id bond) = true.
Proof.
  revert bond. apply (Forall_forall (λ bond, spliceable (Bond.id bond) = true)).
  unfold bonds. repeat constructor.
Qed.

Lemma GetBondDetail_found (bond : Bond.t) :
  bond ∈ bonds → GetBondDetail (Bond.id bond) = HttpResponse.json (Data.mk bond).
Proof.
  intros Hin. unfold GetBondDetail.
  by rewrite (find_unique Bond.id bonds bond bonds_NoDup Hin).
Qed.

(** X16: the list and the detail agree.  For every option that
    [fetchBondOptions] returns, the id can be spliced into the address as
    it is, [fetchBondDetail] of that id returns a bond of the store whose
    id, name, issuer and rating are those of the option, and the name the
    card shows for the selection is the name of that bond. *)
Theorem bond_option_has_detail (b : Body.t (list BondOption.t) BondsMeta.t)
    (opt : BondOption.t) :
  AboutPage.fetchBondOptions = Returned b → opt ∈ Body.data b →
  spliceable (BondOption.id opt) = true
  ∧ ∃ bond, AboutPage.fetchBondDetail (BondOption.id opt)
            = Returned (Data.mk bond)
            ∧ bond ∈ bonds
            ∧ BondOption.mk (Bond.id bond) (Bond.name bond) (Bond.issuer bond)
                (Bond.rating bond) = opt
            ∧ AboutPage.selected_name (Body.data b)
                (Some (BondOption.id opt)) bond = Bond.name bond.
Proof.
  set (proj := λ bond : Bond.t,
         BondOption.mk (Bond.id bond) (Bond.name bond) (Bond.issuer bond)
           (Bond.rating bond)).
  intros Hb Hopt.
  assert (Hdata : Body.data b = proj <$> bonds).
  { change AboutPage.fetchBondOptions
      with (Returned
              (Body.mk (proj <$> bonds)
                 (BondsMeta.mk (length (proj <$> bonds))))) in Hb.
    by injection Hb as <-. }
  rewrite Hdata in Hopt |- *.
  apply list_elem_of_fmap in Hopt as (bond & -> & Hin).
  change (BondOption.id (proj bond)) with (Bond.id bond).
  split; [by apply bonds_spliceable|]. exists bond.
  split; [|split; [done|split; [done|]]].
  - unfold AboutPage.fetchBondDetail. by rewrite (GetBondDetail_found bond Hin).
  - unfold AboutPage.selected_name, AboutPage.selectedOption.
    change (Bond.id bond) with (BondOption.id (proj bond)).
    rewrite (find_unique BondOption.id (proj <$> bonds) (proj bond)).
    + reflexivity.
    + rewrite <- list_fmap_compose. apply bonds_NoDup.
    + by apply list_elem_of_fmap_2.
Qed.

Lemma bond_option_has_detail_witness :
  ∃ bond, AboutPage.fetchBondDetail "bond-003" = Returned (Data.mk bond)
          ∧ bond ∈ bonds
          ∧ BondOption.mk (Bond.id bond) (Bond.name bond) (Bond.issuer bond)
              (Bond.rating bond)
            = BondOption.mk "bond-003" "Solara Grid 2040"
                "Solara Power Holdings" Bond.A.
Proof.
  destruct (bond_option_has_detail
              (Body.mk
                 ((λ bond, BondOption.mk (Bond.id bond) (Bond.name bond)
                             (Bond.issuer bond) (Bond.rating bond)) <$> bonds)
                 (BondsMeta.mk 5))
              (BondOption.mk "bond-003" "Solara Grid 2040"
                 "Solara Power Holdings" Bond.A))
    as (_ & bond & H1 & H2 & H3 & _).
  - reflexivity.
  - apply (list_elem_of_lookup_2 _ 2). reflexivity.
  - exists bond. split; [exact H1|]. split; [exact H2 | exact H3].
Defined.




End AboutPageFacts.

(** ** The services page *)

Section ServicesPageFacts.

Lemma instruments_lookup (key : string) (l : list Instrument.t) :
  instrumentsByAssetClass !! key = Some l
  ↔ (key = "equities" ∧ l = instruments_equities)
    ∨ (key = "fixed-income" ∧ l = instruments_fixed_income)
    ∨ (key = "alternatives" ∧ l = instruments_alternatives)
    ∨ (key = "multi-asset" ∧ l = instruments_multi_asset).
Proof.
  unfold instrumentsByAssetClass.
  rewrite !lookup_insert_Some, lookup_singleton_Some.
  split.
  - intros [[<- <-]|[? [[<- <-]|[? [[<- <-]|[? [<- <-]]]]]]]; tauto.
  - intros [[-> ->]|[[-> ->]|[[-> ->]|[-> ->]]]].
    + by left.
    + right. split; [done|]. by left.
    + right. split; [done|]. right. split; [done|]. by left.
    + right. split; [done|]. right. split; [done|]. right. by split.
Qed.

(** X18: the asset classes of the form and the table of the handler
    match.  A key has a list in [instrumentsByAssetClass] exactly when it
    is one of the four values the form accepts, every list holds five
    instruments, and no id and no ticker occurs twice in the table. *)
Theorem instruments_table :
  (∀ key, key ∈ ServicesPage.assetClass_values
          ↔ is_Some (instrumentsByAssetClass !! key))
  ∧ (∀ key l, instrumentsByAssetClass !! key = Some l → length l = 5)
  ∧ NoDup (Instrument.id
             <$> mjoin ((λ key, default [] (instrumentsByAssetClass !! key))
                          <$> ServicesPage.assetClass_values))
  ∧ NoDup (Instrument.ticker
             <$> mjoin ((λ key, default [] (instrumentsByAssetClass !! key))
                          <$> ServicesPage.assetClass_values)).
Proof.
  split; [|split; [|split]].
  - intros key. unfold ServicesPage.assetClass_values, is_Some.
    setoid_rewrite instruments_lookup. split.
    + intros H. repeat (apply elem_of_cons in H as [->|H]; [eexists; tauto|]).
      by apply elem_of_nil in H.
    + intros (l & [[-> _]|[[-> _]|[[-> _]|[-> _]]]]).
      * apply list_elem_of_here.
      * do 1 apply list_elem_of_further. apply list_elem_of_here.
      * do 2 apply list_elem_of_further. apply list_elem_of_here.
      * do 3 apply list_elem_of_further. apply list_elem_of_here.
  - intros key l [[_ ->]|[[_ ->]|[[_ ->]|[_ ->]]]]%instruments_lookup;
      reflexivity.
  - apply (bool_decide_unpack _). vm_compute. exact I.
  - apply (bool_decide_unpack _). vm_compute. exact I.
Qed.

Lemma instruments_table_witness :
  is_Some (instrumentsByAssetClass !! "multi-asset")
  ∧ length instruments_multi_asset = 5.
Proof.
  destruct instruments_table as (H1 & H2 & _). split.
  - apply H1. do 3 apply list_elem_of_further. apply list_elem_of_here.
  - apply (H2 "multi-asset"). reflexivity.
Defined.

(** X19: the instruments of the services page.  For each asset class of
    the form the query of the page returns the five instruments the table
    holds for it, and asks with a name that can be spliced into the
    address; before a class is chosen the page asks for the class
    [undefined] and gets an empty list. *)
Theorem instrumentsQuery_lists (key : string) :
  key ∈ ServicesPage.assetClass_values →
  spliceable key = true
  ∧ (∃ l, ServicesPage.instrumentsQuery (Some key)
          = Returned (Data.mk (ServicesPage.Array l))
          ∧ instrumentsByAssetClass !! key = Some l
          ∧ length l = 5)
  ∧ ServicesPage.instrumentsQuery None
    = Returned (Data.mk (ServicesPage.Array [])).
Proof.
  intros H. unfold ServicesPage.assetClass_values in H.
  repeat (apply elem_of_cons in H as [->|H];
          [split; [reflexivity|]; split;
           [eexists; split; [vm_compute; reflexivity|];
            split; [vm_compute; reflexivity | reflexivity]
           | vm_compute; reflexivity]|]).
  by apply elem_of_nil in H.
Qed.

Lemma instrumentsQuery_lists_witness :
  ∃ l, ServicesPage.instrumentsQuery (Some "fixed-income")
       = Returned (Data.mk (ServicesPage.Array l))
       ∧ instrumentsByAssetClass !! "fixed-income" = Some l
       ∧ length l = 5.
Proof.
  apply (instrumentsQuery_lists "fixed-income").
  apply list_elem_of_further, list_elem_of_here.
Defined.

End ServicesPageFacts.
